(** * GitHub Truth Engine: a shallow embedding of the evidence and scoring pipeline

    The development follows the Python sources of the [gte] package:

    - [analyzer.py]  ([RepoAnalyzer]): repository-reference parsing, claim
      extraction, dependency detection, issue statistics;
    - [prompts.py]   ([build_analysis_prompt]): the prompt composer;
    - [roaster.py]   ([AIRoaster]): backend initialisation and the offline
      [quick_roast] scoring heuristic;
    - [cli.py]       ([roast]): the step of the command that builds the
      roaster and produces the roast text.

    Conventions.  A Python [str] is a Rocq [string] that holds its UTF-8
    bytes; the character classes, the case mappings and the white space of
    the text operations are those of Python on ASCII, and a byte above 127
    belongs to no class and has no other case.  A Python [int] is a [Z], a
    Python [float] a binary64 [float], [None] is the [None] of an [option],
    a raised exception is the error side of a result type. *)

From Stdlib Require Import ZArith List String Ascii Bool Lia.
From Stdlib Require Import DecimalString DecimalPos Floats Uint63.
Import ListNotations.

Local Open Scope string_scope.
Local Open Scope Z_scope.

(** ** Python text primitives *)

Module Py.

(** The double-quote character, written by its code. *)
Definition dquote : string := String (ascii_of_nat 34) EmptyString.

(** The line feed written [\n] in the Python sources. *)
Definition nl : string := String (ascii_of_nat 10) EmptyString.

(** [str(n)] for an [int]. *)
Definition str_of_int (n : Z) : string := NilZero.string_of_int (Z.to_int n).

(** Insertion of the thousands separator into a run of decimal digits. *)
Fixpoint group3 (digits : string) : string :=
  match digits with
  | EmptyString => EmptyString
  | String d rest =>
      String d (if (Nat.ltb 0 (String.length rest)
                    && Nat.eqb (Nat.modulo (String.length rest) 3) 0)%bool
                then "," ++ group3 rest
                else group3 rest)
  end.

(** [format(n, ',')], the [{n:,}] of an f-string. *)
Definition format_comma (n : Z) : string :=
  if n <? 0 then "-" ++ group3 (str_of_int (- n)) else group3 (str_of_int n).

(** [str(b)] for a [bool]. *)
Definition str_of_bool (b : bool) : string := if b then "True" else "False".

(** [s.startswith(p)]. *)
Definition startswith (s p : string) : bool := String.prefix p s.

(** [needle in hay] on strings. *)
Fixpoint contains (needle hay : string) : bool :=
  if String.prefix needle hay then true
  else match hay with
       | EmptyString => false
       | String _ rest => contains needle rest
       end.

(** [sep.join(parts)]. *)
Fixpoint join (sep : string) (parts : list string) : string :=
  match parts with
  | [] => EmptyString
  | [p] => p
  | p :: rest => p ++ sep ++ join sep rest
  end.

(** Truthiness of an optional string: [None] and [''] are falsy. *)
Definition or_str (v : option string) (default : string) : string :=
  match v with
  | Some (String c s) => String c s
  | _ => default
  end.

(** Truthiness of an optional integer: [None] and [0] are falsy.  This is
    [v or default] followed by the [str] of the template. *)
Definition or_int (v : option Z) (default : string) : string :=
  match v with
  | Some n => if n =? 0 then default else str_of_int n
  | None => default
  end.

Definition code (c : ascii) : N := N_of_ascii c.

(** [c.isspace()] on ASCII: tab to carriage return, the four separators
    [\x1c]..[\x1f], and the space. *)
Definition is_space (c : ascii) : bool :=
  ((9 <=? code c) && (code c <=? 13) || (28 <=? code c) && (code c <=? 32))%N.

Definition is_digit (c : ascii) : bool :=
  ((48 <=? code c) && (code c <=? 57))%N.

Definition is_upper (c : ascii) : bool :=
  ((65 <=? code c) && (code c <=? 90))%N.

Definition is_lower (c : ascii) : bool :=
  ((97 <=? code c) && (code c <=? 122))%N.

(** The class [\w] on ASCII: letters, digits and the underscore. *)
Definition is_word (c : ascii) : bool :=
  is_upper c || is_lower c || is_digit c || (code c =? 95)%N.

Definition lower_char (c : ascii) : ascii :=
  if is_upper c then ascii_of_N (code c + 32) else c.

Definition upper_char (c : ascii) : ascii :=
  if is_lower c then ascii_of_N (code c - 32) else c.

Fixpoint map_chars (f : ascii -> ascii) (s : string) : string :=
  match s with
  | EmptyString => EmptyString
  | String c rest => String (f c) (map_chars f rest)
  end.

(** [s.lower()] and [s.upper()]. *)
Definition lower : string -> string := map_chars lower_char.
Definition upper : string -> string := map_chars upper_char.

(** [all(f(c) for c in s)] and [s.count(c)]. *)
Fixpoint all_chars (f : ascii -> bool) (s : string) : bool :=
  match s with
  | EmptyString => true
  | String c rest => f c && all_chars f rest
  end.

Fixpoint count_char (c : ascii) (s : string) : nat :=
  match s with
  | EmptyString => O
  | String c' rest => (if Ascii.eqb c' c then 1 else 0) + count_char c rest
  end.

(** [s.lstrip(chars)], [s.rstrip(chars)], with the set of characters given
    as a predicate. *)
Fixpoint lstrip_of (f : ascii -> bool) (s : string) : string :=
  match s with
  | EmptyString => EmptyString
  | String c rest => if f c then lstrip_of f rest else s
  end.

Fixpoint rstrip_of (f : ascii -> bool) (s : string) : string :=
  match s with
  | EmptyString => EmptyString
  | String c rest =>
      match rstrip_of f rest with
      | EmptyString => if f c then EmptyString else String c EmptyString
      | String c' rest' => String c (String c' rest')
      end
  end.

(** [s.strip()]. *)
Definition strip (s : string) : string := rstrip_of is_space (lstrip_of is_space s).

(** [s.split(sep)] for a separator of one character. *)
Fixpoint split (sep : ascii) (s : string) : list string :=
  match s with
  | EmptyString => [EmptyString]
  | String c rest =>
      if Ascii.eqb c sep then EmptyString :: split sep rest
      else match split sep rest with
           | part :: parts => String c part :: parts
           | [] => [String c EmptyString]
           end
  end.

(** Validity of a byte string as UTF-8, the condition under which
    [bytes.decode('utf-8')] returns. *)
Definition is_cont (c : ascii) : bool := ((128 <=? code c) && (code c <=? 191))%N.

Definition between (lo hi : N) (c : ascii) : bool :=
  ((lo <=? code c) && (code c <=? hi))%N.

Fixpoint utf8_valid (b : string) : bool :=
  match b with
  | EmptyString => true
  | String c0 r0 =>
      if (code c0 <=? 127)%N then utf8_valid r0
      else match r0 with
      | EmptyString => false
      | String c1 r1 =>
          if between 194 223 c0 then is_cont c1 && utf8_valid r1
          else match r1 with
          | EmptyString => false
          | String c2 r2 =>
              if between 224 239 c0 then
                (if (code c0 =? 224)%N then between 160 191 c1
                 else if (code c0 =? 237)%N then between 128 159 c1
                 else is_cont c1)
                && is_cont c2 && utf8_valid r2
              else match r2 with
              | EmptyString => false
              | String c3 r3 =>
                  if between 240 244 c0 then
                    (if (code c0 =? 240)%N then between 144 191 c1
                     else if (code c0 =? 244)%N then between 128 143 c1
                     else is_cont c1)
                    && is_cont c2 && is_cont c3 && utf8_valid r3
                  else false
              end
          end
      end
  end.

(** [b.decode('utf-8')]: the text (kept in its UTF-8 form), or [None] for
    the [UnicodeDecodeError]. *)
Definition decode_utf8 (b : string) : option string :=
  if utf8_valid b then Some b else None.

(** Exceptions that the modelled code raises by name. *)
Inductive exn : Set :=
| ValueError (msg : string)
| ImportError (msg : string)
| RuntimeError (msg : string).

(** The outcome of a call that returns or raises. *)
Inductive result (A : Type) : Type :=
| Return (a : A)
| Raise (e : exn).
Arguments Return {A} a.
Arguments Raise {A} e.

(** [sep not in s]. *)
Definition free_of (sep : ascii) (s : string) : bool :=
  all_chars (fun c => negb (Ascii.eqb c sep)) s.

(** [s.replace(old, new)] for a non-empty [old]: the occurrences of [old]
    are taken from left to right, without overlap; [skip] counts the
    characters of the last occurrence that are yet to be passed. *)
Fixpoint replace_from (old new s : string) (skip : nat) : string :=
  match s with
  | EmptyString => EmptyString
  | String c rest =>
      match skip with
      | S skip' => replace_from old new rest skip'
      | O =>
          if String.prefix old s
          then new ++ replace_from old new rest (Nat.pred (String.length old))
          else String c (replace_from old new rest O)
      end
  end.

Definition replace (s old new : string) : string := replace_from old new s O.

(** The digits of [int(s)]: decimal digits, with single underscores between
    two of them.  [seen] tells whether the last character was a digit. *)
Fixpoint digits_value (s : string) (acc : Z) (seen : bool) : option Z :=
  match s with
  | EmptyString => if seen then Some acc else None
  | String c rest =>
      if is_digit c then digits_value rest (10 * acc + Z.of_N (code c - 48)) true
      else if Ascii.eqb c "_" then
        (if seen then digits_value rest acc false else None)
      else None
  end.

(** [int(s)] in base 10 on ASCII text: white space around, an optional
    sign, then the digits; [None] stands for the [ValueError].  The bound of
    recent interpreters on the number of digits is left out. *)
Definition int_of_str (s : string) : option Z :=
  match strip s with
  | String "-" rest => option_map Z.opp (digits_value rest 0 false)
  | String "+" rest => digits_value rest 0 false
  | t => digits_value t 0 false
  end.

End Py.

(** ** A backtracking matcher for the regular expressions of the sources

    The patterns of [analyzer.py] are sequences of one-character items (a
    literal, an escaped literal, [\s], [\d], [\w], [[^c]]) each followed by
    nothing, [?] or [+]; a pair of parentheses encloses one item. *)

Module Re.

Inductive cls : Set :=
| Lit (c : ascii)
| Space
| Digit
| Word
| Except (c : ascii).

Inductive quant : Set := One | Opt | Plus.

Record atom : Set := mkAtom {
  a_cls : cls;
  a_quant : quant;
  a_group : bool
}.

Definition pattern : Set := list atom.

Definition cls_matches (k : cls) (c : ascii) : bool :=
  match k with
  | Lit l => Ascii.eqb c l
  | Space => Py.is_space c
  | Digit => Py.is_digit c
  | Word => Py.is_word c
  | Except l => negb (Ascii.eqb c l)
  end.

(** *** Reading a pattern from its source text *)

Definition parse_cls (s : string) : option (cls * string) :=
  match s with
  | String "\" (String c r) =>
      Some (if Ascii.eqb c "s" then Space
            else if Ascii.eqb c "d" then Digit
            else if Ascii.eqb c "w" then Word
            else Lit c, r)
  | String "[" (String "^" (String c (String "]" r))) => Some (Except c, r)
  | String c r => Some (Lit c, r)
  | EmptyString => None
  end.

Definition parse_quant (s : string) : quant * string :=
  match s with
  | String "?" r => (Opt, r)
  | String "+" r => (Plus, r)
  | _ => (One, s)
  end.

Fixpoint parse (fuel : nat) (s : string) : pattern :=
  match fuel with
  | O => []
  | S fuel' =>
      match s with
      | EmptyString => []
      | String "(" r =>
          match parse_cls r with
          | Some (k, r1) =>
              let (q, r2) := parse_quant r1 in
              match r2 with
              | String ")" r3 => mkAtom k q true :: parse fuel' r3
              | _ => []
              end
          | None => []
          end
      | _ =>
          match parse_cls s with
          | Some (k, r1) =>
              let (q, r2) := parse_quant r1 in
              mkAtom k q false :: parse fuel' r2
          | None => []
          end
      end
  end.

(** [re.compile(source)]; every item takes at least one character of the
    source, so its length is fuel enough. *)
Definition compile (source : string) : pattern :=
  parse (String.length source) source.

(** The source text of a pattern, to compare with what was read. *)
Definition is_special (c : ascii) : bool :=
  Ascii.eqb c "\" || Ascii.eqb c "." || Ascii.eqb c "+" || Ascii.eqb c "?"
  || Ascii.eqb c "(" || Ascii.eqb c ")" || Ascii.eqb c "[" || Ascii.eqb c "]".

Definition cls_source (k : cls) : string :=
  match k with
  | Lit c => if is_special c then String "\" (String c EmptyString)
             else String c EmptyString
  | Space => "\s"
  | Digit => "\d"
  | Word => "\w"
  | Except c => "[^" ++ String c "]"
  end.

Definition atom_source (a : atom) : string :=
  let item := cls_source (a_cls a)
              ++ match a_quant a with One => EmptyString | Opt => "?" | Plus => "+" end in
  if a_group a then "(" ++ item ++ ")" else item.

Definition source (p : pattern) : string :=
  String.concat EmptyString (map atom_source p).

(** *** Matching *)

(** The greedy loop of [+] after its first character: take characters of
    the class while the rest of the pattern, [k], still matches behind
    them, giving back one character at a time otherwise. *)
Fixpoint greedy (f : ascii -> bool) (k : string -> option (list string))
    (s : string) : option (string * list string) :=
  match s with
  | String c rest =>
      if f c then
        match greedy f k rest with
        | Some (t, ts) => Some (String c t, ts)
        | None => option_map (pair EmptyString) (k s)
        end
      else option_map (pair EmptyString) (k s)
  | EmptyString => option_map (pair EmptyString) (k s)
  end.

(** A match of the pattern at the start of [s]: the text taken by each
    item, in order. *)
Fixpoint match_here (p : pattern) (s : string) {struct p} : option (list string) :=
  match p with
  | [] => Some []
  | a :: p' =>
      match a_quant a with
      | One =>
          match s with
          | String c rest =>
              if cls_matches (a_cls a) c
              then option_map (cons (String c EmptyString)) (match_here p' rest)
              else None
          | EmptyString => None
          end
      | Opt =>
          match s with
          | String c rest =>
              if cls_matches (a_cls a) c then
                match match_here p' rest with
                | Some ts => Some (String c EmptyString :: ts)
                | None => option_map (cons EmptyString) (match_here p' s)
                end
              else option_map (cons EmptyString) (match_here p' s)
          | EmptyString => option_map (cons EmptyString) (match_here p' s)
          end
      | Plus =>
          match s with
          | String c rest =>
              if cls_matches (a_cls a) c then
                option_map (fun r => String c (fst r) :: snd r)
                           (greedy (cls_matches (a_cls a)) (match_here p') rest)
              else None
          | EmptyString => None
          end
      end
  end.

(** The text of the whole match, [m.group(0)]. *)
Definition whole (ts : list string) : string := String.concat EmptyString ts.

(** The texts of the parenthesised items, [m.groups()]. *)
Fixpoint groups (p : pattern) (ts : list string) : list string :=
  match p, ts with
  | a :: p', t :: ts' => if a_group a then t :: groups p' ts' else groups p' ts'
  | _, _ => []
  end.

(** [re.search(p, s)]: the match at the leftmost position that has one. *)
Fixpoint search (p : pattern) (s : string) : option (list string) :=
  match match_here p s with
  | Some ts => Some ts
  | None =>
      match s with
      | EmptyString => None
      | String _ rest => search p rest
      end
  end.

(** The scan of [re.findall]: [skip] counts the characters of the last
    match that are yet to be passed. *)
Fixpoint scan (p : pattern) (s : string) (skip : nat) : list string :=
  match s with
  | EmptyString =>
      match skip, match_here p s with
      | O, Some ts => [whole ts]
      | _, _ => []
      end
  | String _ rest =>
      match skip with
      | S skip' => scan p rest skip'
      | O =>
          match match_here p s with
          | Some ts => whole ts :: scan p rest (Nat.pred (String.length (whole ts)))
          | None => scan p rest O
          end
      end
  end.

(** [re.findall(p, s)] for a pattern without groups: the texts of the
    successive matches, left to right, without overlap. *)
Definition findall (p : pattern) (s : string) : list string := scan p s O.

End Re.

(** ** The analysis record *)

(** One entry of [readme_claims]: the dict with keys [category], [text] and
    [count] built by [_extract_claims]. *)
Record Claim : Set := mkClaim {
  category : string;
  text : string;
  count : Z
}.

(** The [dependencies] dict of [_get_dependencies]. *)
Record Dependencies : Set := mkDependencies {
  dep_count : Z;
  dep_type : option string;
  dep_list : list string
}.

(** A Python number that is either an [int] or a [float]. *)
Inductive pynum : Set :=
| PyInt (z : Z)
| PyFloat (f : float).

(** The [issue_stats] dict of [_get_issue_stats]. *)
Record IssueStats : Set := mkIssueStats {
  issues_open : Z;
  issues_closed : Z;
  issues_total : Z;
  close_rate : pynum
}.

(** The dict returned by [RepoAnalyzer.analyze], with the keys that the
    prompt composer and the scoring heuristic read.  The three timestamps are
    seconds on a common time line. *)
Record RepoData : Set := mkRepoData {
  full_name : string;
  stars : Z;
  description : option string;
  readme_claims : list Claim;
  dependencies : Dependencies;
  has_tests : bool;
  has_benchmarks : bool;
  has_ci : bool;
  has_docs : bool;
  test_coverage : option Z;
  created_at : Z;
  updated_at : Z;
  pushed_at : Z;
  commits_last_90_days : Z;
  open_issues : Z;
  issue_stats : IssueStats;
  license : option string
}.

(** ** Python arithmetic on [float] *)

Module PyNum.

(** [float(n)]; exact for [|n| < 2^53]. *)
Definition float_of_int (n : Z) : float :=
  if n <? 0 then PrimFloat.opp (PrimFloat.of_uint63 (Uint63.of_Z (- n)))
  else PrimFloat.of_uint63 (Uint63.of_Z n).

(** [a / b] on two [int]: [None] stands for the [ZeroDivisionError]. *)
Definition truediv (a b : Z) : option float :=
  if b =? 0 then None
  else Some (PrimFloat.div (float_of_int a) (float_of_int b)).

(** Rounding of the fraction [n / d], [0 < d], to the nearest integer,
    ties to the even one. *)
Definition round_half_even (n d : Z) : Z :=
  let q := n / d in
  let r := n mod d in
  match 2 * r ?= d with
  | Lt => q
  | Gt => q + 1
  | Eq => if Z.even q then q else q + 1
  end.

(** [round(x, 1)]: the exact value of [x], [m * 2^e], is rounded to a whole
    number of tenths, ties to even, and the result is the [float] nearest to
    that decimal; a value without fractional part, an infinity and a NaN are
    returned as they are.  The quotient is exact in this sense for
    [|x| < 2^49], where the number of tenths is below [2^53]. *)
Definition round1 (x : float) : float :=
  match Prim2SF x with
  | S754_finite s m e =>
      if 0 <=? e then x
      else
        let tenths := round_half_even (Z.pos m * 10) (2 ^ (- e)) in
        let r := PrimFloat.div (float_of_int tenths) (float_of_int 10) in
        if s then PrimFloat.opp r else r
  | _ => x
  end.

End PyNum.

(** ** [analyzer.py] *)

Module Analyzer.

Import Py.

(** *** [_parse_repo_url] *)

Definition github_re : Re.pattern := Re.compile "github\.com/([^/]+)/([^/]+)".

Definition is_slash (c : ascii) : bool := Ascii.eqb c "/".

Definition invalid_format (url : string) : exn :=
  ValueError ("Invalid GitHub URL format: " ++ url).

Definition _parse_repo_url (url : string) : result (string * string) :=
  let url := rstrip_of is_slash (strip url) in
  if contains "github.com" url then
    match Re.search github_re url with
    | Some ts =>
        match Re.groups github_re ts with
        | [owner; name] => Return (owner, name)
        | _ => Raise (invalid_format url)
        end
    | None => Raise (invalid_format url)
    end
  else
    match split "/" url with
    | [owner; name] => Return (owner, name)
    | _ => Raise (invalid_format url)
    end.

(** *** [_extract_claims] *)

(** The dict [patterns], in its order of declaration, each pattern in its
    source text. *)
Definition patterns : list (string * list string) :=
  [ ("performance",
      [ "blazingly?\s+fast"; "\d+x\s+faster"; "lightning\s+fast";
        "extremely\s+fast"; "super\s+fast"; "optimized";
        "high\s+performance"; "performant"; "blazing" ]);
    ("simplicity",
      [ "simple"; "easy"; "straightforward"; "just\s+\w+";
        "zero\s+config"; "no\s+setup"; "quick\s+start";
        "minimal\s+setup"; "plug\s+and\s+play" ]);
    ("production",
      [ "production\s+ready"; "battle\s+tested"; "enterprise\s+grade";
        "stable"; "reliable"; "proven"; "mature";
        "industry\s+standard" ]);
    ("lightweight",
      [ "lightweight"; "minimal"; "tiny"; "small\s+footprint";
        "zero\s+dependencies"; "no\s+dependencies";
        "minimal\s+dependencies" ]);
    ("modern",
      [ "modern"; "cutting\s+edge"; "next\s+generation";
        "future\s+proof"; "state\s+of\s+the\s+art" ]);
    ("comprehensive",
      [ "complete"; "full\s+featured"; "comprehensive";
        "all\s+in\s+one"; "everything\s+you\s+need" ]) ].

(** The body of the inner loop: one pattern of one category, with the list
    [claims] built so far. *)
Definition try_pattern (readme_lower category : string)
    (claims : list Claim) (pattern : string) : list Claim :=
  match Re.findall (Re.compile pattern) readme_lower with
  | [] => claims
  | m0 :: ms =>
      claims ++ [mkClaim category m0 (Z.of_nat (List.length (m0 :: ms)))]
  end.

Definition _extract_claims (readme : string) : list Claim :=
  let readme_lower := lower readme in
  fold_left
    (fun claims entry =>
       fold_left (try_pattern readme_lower (fst entry)) (snd entry) claims)
    patterns [].

(** *** [_get_dependencies] *)

(** A value returned by [json.loads]; an object keeps its members in the
    order of the dict. *)
#[warnings="-register-all"]
Inductive json : Set :=
| JNull
| JBool (b : bool)
| JNumber (literal : string)
| JString (s : string)
| JArray (items : list json)
| JObject (members : list (string * json)).

(** What [repo.get_contents(path)] returns when it returns: a file with
    its [decoded_content], or the listing of a directory. *)
Inductive contents : Set :=
| ContentFile (decoded_content : string)
| ContentDir (names : list string).

(** [content.decoded_content]; a listing has no such attribute. *)
Definition decoded_content_of (c : contents) : option string :=
  match c with
  | ContentFile b => Some b
  | ContentDir _ => None
  end.

(** Assignment [d[k] = v] on a dict kept as its list of items. *)
Fixpoint dict_set (k : string) (v : json) (d : list (string * json))
    : list (string * json) :=
  match d with
  | [] => [(k, v)]
  | (k', v') :: d' =>
      if String.eqb k k' then (k', v) :: d' else (k', v') :: dict_set k v d'
  end.

(** [{**a, **b}]. *)
Definition dict_merge (a b : list (string * json)) : list (string * json) :=
  fold_left (fun d kv => dict_set (fst kv) (snd kv) d) (a ++ b) [].

Fixpoint dict_get (k : string) (d : list (string * json)) : option json :=
  match d with
  | [] => None
  | (k', v) :: d' => if String.eqb k k' then Some v else dict_get k d'
  end.

(** [data.get(key, {})] used as a mapping: [None] when [data] has no
    [get] or the value cannot be unpacked with [**]. *)
Definition get_mapping (data : json) (key : string)
    : option (list (string * json)) :=
  match data with
  | JObject members =>
      match dict_get key members with
      | None => Some []
      | Some (JObject m) => Some m
      | Some _ => None
      end
  | _ => None
  end.

(** The dict [dep_files], in its order of declaration. *)
Definition dep_files : list (string * string) :=
  [ ("package.json", "npm");
    ("requirements.txt", "pip");
    ("Cargo.toml", "cargo");
    ("go.mod", "go");
    ("pom.xml", "maven");
    ("build.gradle", "gradle");
    ("Gemfile", "bundler") ].

(** The names kept from [requirements.txt]. *)
Definition requirement_names (lines : list string) : list string :=
  map strip
    (filter (fun l => negb (String.eqb (strip l) EmptyString)
                      && negb (startswith l "#")) lines).

Section Dependencies.

(** [json.loads]: [None] when it raises. *)
Variable json_loads : string -> option json.

(** [repo.get_contents]: [None] when it raises. *)
Variable get_contents : string -> option contents.

(** The statements of the [try] block after [deps['type'] = dep_type]:
    [Some deps'] when they reach [break], [None] when one of them
    raises. *)
Definition read_manifest (filename : string) (content : contents)
    (deps : Dependencies) : option Dependencies :=
  if String.eqb filename "package.json" then
    match decoded_content_of content with
    | None => None
    | Some bytes =>
        match json_loads bytes with
        | None => None
        | Some data =>
            match get_mapping data "dependencies",
                  get_mapping data "devDependencies" with
            | Some a, Some b =>
                let deps_dict := dict_merge a b in
                Some (mkDependencies (Z.of_nat (List.length deps_dict))
                                     (dep_type deps)
                                     (map fst deps_dict))
            | _, _ => None
            end
        end
    end
  else if String.eqb filename "requirements.txt" then
    match decoded_content_of content with
    | None => None
    | Some bytes =>
        match decode_utf8 bytes with
        | None => None
        | Some text =>
            let names := requirement_names (split "010" text) in
            Some (mkDependencies (Z.of_nat (List.length names))
                                 (dep_type deps) names)
        end
    end
  else Some deps.

(** The loop over [dep_files], with the dict [deps] as it stands. *)
Fixpoint probe (files : list (string * string)) (deps : Dependencies)
    : Dependencies :=
  match files with
  | [] => deps
  | (filename, type) :: rest =>
      match get_contents filename with
      | None => probe rest deps
      | Some content =>
          let deps := mkDependencies (dep_count deps) (Some type) (dep_list deps) in
          match read_manifest filename content deps with
          | Some deps' => deps'
          | None => probe rest deps
          end
      end
  end.

Definition _get_dependencies : Dependencies :=
  probe dep_files (mkDependencies 0 None []).

End Dependencies.

(** *** [_estimate_test_coverage], from the result of [_check_tests] *)

Definition _estimate_test_coverage (has_tests : bool) : option Z :=
  if negb has_tests then Some 0 else None.

(** *** [_get_issue_stats] *)

(** The statements of the [try] block: [None] when one of them raises.
    [open_issues_count] and [closed_count] are what [repo.open_issues_count]
    and [repo.get_issues(state='closed').totalCount] give, [None] when the
    read raises. *)
Definition issue_stats_body (open_issues_count closed_count : option Z)
    : option IssueStats :=
  match open_issues_count with
  | None => None
  | Some open_issues =>
      match closed_count with
      | None => None
      | Some closed_issues =>
          let total_issues := open_issues + closed_issues in
          let rate :=
            if 0 <? total_issues then
              option_map
                (fun q => PyFloat (PyNum.round1
                            (PrimFloat.mul q (PyNum.float_of_int 100))))
                (PyNum.truediv closed_issues total_issues)
            else Some (PyInt 0) in
          option_map (mkIssueStats open_issues closed_issues total_issues) rate
      end
  end.

Definition _get_issue_stats (open_issues_count closed_count : option Z)
    : IssueStats :=
  match issue_stats_body open_issues_count closed_count with
  | Some stats => stats
  | None => mkIssueStats 0 0 0 (PyInt 0)
  end.

(** *** The probes of the tree *)

(** An item of a listing returned by [repo.get_contents]: its [type] and its
    [name].  A directory carries what [repo.get_contents(item.path)] returns
    for it: its own listing, or [None] when the call raises.  [EOther]
    stands for the types that are neither ["file"] nor ["dir"]. *)
#[warnings="-register-all"]
Inductive entry : Set :=
| EFile (name : string)
| EDir (name : string) (children : option (list entry))
| EOther (name : string).

Definition entry_name (e : entry) : string :=
  match e with
  | EFile name => name
  | EDir name _ => name
  | EOther name => name
  end.

(** [any(indicator in name.lower() for indicator in indicators)]. *)
Definition has_indicator (indicators : list string) (name : string) : bool :=
  existsb (fun indicator => contains indicator (lower name)) indicators.

Definition test_indicators : list string :=
  [ "test"; "tests"; "__tests__"; "spec"; "specs";
    "test_"; "_test.py"; ".test.js"; ".spec.js" ].

(** What the loop of [search_for_tests] does with one item. *)
Fixpoint search_item (item : entry) : bool :=
  match item with
  | EDir name children =>
      has_indicator test_indicators name
      || match children with
         | Some sub_items =>
             (fix search_for_tests (items : list entry) : bool :=
                match items with
                | [] => false
                | i :: rest => search_item i || search_for_tests rest
                end) sub_items
         | None => false
         end
  | EFile name => has_indicator test_indicators name
  | EOther _ => false
  end.

Fixpoint search_for_tests (items : list entry) : bool :=
  match items with
  | [] => false
  | item :: rest => search_item item || search_for_tests rest
  end.

(** [_check_tests], [_check_benchmarks] and [_check_docs], for what
    [repo.get_contents("")] returns ([None] when it raises). *)
Definition _check_tests (root : option (list entry)) : bool :=
  match root with
  | Some contents => search_for_tests contents
  | None => false
  end.

Definition _check_benchmarks (root : option (list entry)) : bool :=
  match root with
  | Some contents =>
      existsb (fun item => contains "benchmark" (lower (entry_name item))
                           || contains "bench" (lower (entry_name item)))
              contents
  | None => false
  end.

Definition doc_indicators : list string := [ "docs"; "documentation"; "doc"; "wiki" ].

Definition _check_docs (root : option (list entry)) : bool :=
  match root with
  | Some contents =>
      existsb (fun item => has_indicator doc_indicators (entry_name item)) contents
  | None => false
  end.

Definition ci_files : list string :=
  [ ".github/workflows"; ".travis.yml"; ".circleci"; "Jenkinsfile";
    ".gitlab-ci.yml"; "azure-pipelines.yml" ].

(** [_check_ci]: the first path that [get_contents] returns for ends the
    loop. *)
Definition _check_ci (get_contents : string -> option contents) : bool :=
  existsb (fun ci_file => match get_contents ci_file with
                          | Some _ => true
                          | None => false
                          end) ci_files.

(** *** [_get_readme] and [_get_commit_frequency] *)

(** [readme_bytes] is [repo.get_readme().decoded_content], [None] when
    either raises. *)
Definition _get_readme (readme_bytes : option string) : option string :=
  match readme_bytes with
  | Some bytes => decode_utf8 bytes
  | None => None
  end.

Record CommitFrequency : Set := mkCommitFrequency {
  last_90_days : Z;
  avg_per_week : pynum;
  is_active : bool
}.

(** [total_count] is [repo.get_commits(since=...).totalCount], [None] when
    the read raises. *)
Definition _get_commit_frequency (total_count : option Z) : CommitFrequency :=
  match total_count with
  | Some commit_count =>
      match PyNum.truediv commit_count 13 with
      | Some q =>
          mkCommitFrequency commit_count (PyFloat (PyNum.round1 q))
                            (0 <? commit_count)
      | None => mkCommitFrequency 0 (PyInt 0) false
      end
  | None => mkCommitFrequency 0 (PyInt 0) false
  end.

(** *** [analyze] *)

(** The repository object of the platform, as [analyze] and its probes read
    it: attributes, and the answers of the calls ([None] for a call that
    raises).  [root] is the listing of the root with the listings below it,
    [get_contents] answers the probes by path. *)
Record Repo : Type := mkRepo {
  repo_full_name : string;
  repo_description : option string;
  stargazers_count : Z;
  open_issues_count : Z;
  repo_created_at : Z;
  repo_updated_at : Z;
  repo_pushed_at : Z;
  readme_bytes : option string;
  get_languages : option (list (string * Z));
  root : option (list entry);
  get_contents : string -> option contents;
  commits_total_count : option Z;
  closed_issues_total_count : option Z;
  license_name : option string
}.

(** How [analyze] ends: with the dict, with the [ValueError] that wraps the
    [GithubException] of [get_repo], or with an exception of a call that no
    [try] of [analyze] covers. *)
Inductive analysis : Type :=
| Analysed (data : RepoData)
| CouldNotAccess (e : exn)
| Propagated.

Section Analyze.

Variable json_loads : string -> option json.

(** [github.get_repo]: the repository, or the text of the
    [GithubException]. *)
Variable get_repo : string -> Repo + string.

(** [analyze], for the [owner] and [repo_name] that the constructor parsed;
    the keys kept are those of [RepoData]. *)
Definition analyze (owner repo_name : string) : analysis :=
  match get_repo (owner ++ "/" ++ repo_name) with
  | inr e => CouldNotAccess (ValueError ("Could not access repository: " ++ e))
  | inl repo =>
      let readme := _get_readme (readme_bytes repo) in
      match get_languages repo with
      | None => Propagated
      | Some _ =>
          let has_tests := _check_tests (root repo) in
          Analysed
            (mkRepoData
               (repo_full_name repo)
               (stargazers_count repo)
               (repo_description repo)
               match readme with
               | Some (String c text) => _extract_claims (String c text)
               | _ => []
               end
               (_get_dependencies json_loads (get_contents repo))
               has_tests
               (_check_benchmarks (root repo))
               (_check_ci (get_contents repo))
               (_check_docs (root repo))
               (_estimate_test_coverage (_check_tests (root repo)))
               (repo_created_at repo)
               (repo_updated_at repo)
               (repo_pushed_at repo)
               (last_90_days (_get_commit_frequency (commits_total_count repo)))
               (open_issues_count repo)
               (_get_issue_stats (Some (open_issues_count repo))
                                 (closed_issues_total_count repo))
               (license_name repo))
      end
  end.

End Analyze.

End Analyzer.

(** ** [prompts.py]: the prompt composer *)

Module Prompts.

Import Py.

(** [SPICY_MODE_ADDITION] *)
Definition SPICY_MODE_ADDITION : string :=
  nl ++ "🌶️ SPICY MODE ACTIVATED 🌶️" ++ nl
  ++ nl
  ++ "Turn up the heat! Be extra sarcastic and witty, but still fair." ++ nl
  ++ "Reference developer culture, memes, and inside jokes." ++ nl
  ++ "Make this roast legendary." ++ nl.

(** [# Format claims] *)
Definition claim_line (claim : Claim) : string :=
  "- " ++ upper (category claim) ++ ": " ++ dquote ++ text claim ++ dquote
  ++ " (mentioned " ++ str_of_int (count claim) ++ "x)" ++ nl.

Definition claims_text (claims : list Claim) : string :=
  match claims with
  | [] => "- No specific claims detected in README" ++ nl
  | _ :: _ =>
      fold_left (fun out claim => out ++ claim_line claim) (firstn 10 claims)
                EmptyString
  end.

(** [(b - a).days] for two timestamps in seconds. *)
Definition days_between (a b : Z) : Z := (b - a) / 86400.

(** [# Calculate age] *)
Definition age_text (age_days : Z) : string :=
  if age_days <? 30 then str_of_int age_days ++ " days old (fresh!)"
  else if age_days <? 365 then str_of_int (age_days / 30) ++ " months old"
  else str_of_int (age_days / 365) ++ " years old".

(** [# Format last commit] *)
Definition last_commit_text (days_since_commit : Z) : string :=
  if days_since_commit =? 0 then "today"
  else if days_since_commit =? 1 then "yesterday"
  else if days_since_commit <? 30 then str_of_int days_since_commit ++ " days ago"
  else if days_since_commit <? 365 then
    str_of_int (days_since_commit / 30) ++ " months ago"
  else str_of_int (days_since_commit / 365) ++ " years ago".

Definition has_category (cat : string) (claims : list Claim) : bool :=
  existsb (fun c => String.eqb (category c) cat) claims.

(** [# Build specific claims to verify] *)
Definition specific_claims (data : RepoData) : list string :=
  (if has_category "performance" (readme_claims data)
   then ["- Performance claims: Has benchmarks = "
         ++ str_of_bool (has_benchmarks data)] else [])
  ++ (if has_category "lightweight" (readme_claims data)
      then ["- Lightweight claims: "
            ++ str_of_int (dep_count (dependencies data)) ++ " dependencies"]
      else [])
  ++ (if has_category "production" (readme_claims data)
      then ["- Production ready claims: Tests = " ++ str_of_bool (has_tests data)
            ++ ", CI = " ++ str_of_bool (has_ci data)] else [])
  ++ (if has_category "simplicity" (readme_claims data)
      then ["- Simplicity claims: Dependency count = "
            ++ str_of_int (dep_count (dependencies data))] else []).

Definition specific_claims_text (data : RepoData) : string :=
  match specific_claims data with
  | [] => "- No specific claims to verify"
  | lines => join nl lines
  end.

(** The value given to the field [test_coverage] of the template. *)
Definition test_coverage_field (data : RepoData) : string :=
  or_int (test_coverage data) "Unknown".

Section Composer.

(** [repr] of a [float], as [str.format] writes it. *)
Variable float_repr : float -> string.

(** [datetime.now(tz)], in seconds on the time line of the record. *)
Variable now : Z.

Definition str_of_num (n : pynum) : string :=
  match n with
  | PyInt z => str_of_int z
  | PyFloat f => float_repr f
  end.

(** [ANALYSIS_TEMPLATE.format(...)] with the fields of [build_analysis_prompt]. *)
Definition analysis (data : RepoData) : string :=
  "Analyze this GitHub repository and generate a roast:" ++ nl
  ++ nl
  ++ "REPOSITORY: " ++ full_name data ++ nl
  ++ "STARS: " ++ str_of_int (stars data) ++ " ⭐" ++ nl
  ++ "DESCRIPTION: " ++ or_str (description data) "No description" ++ nl
  ++ nl
  ++ "README CLAIMS DETECTED:" ++ nl
  ++ claims_text (readme_claims data) ++ nl
  ++ nl
  ++ "ACTUAL EVIDENCE:" ++ nl
  ++ "- Dependencies: " ++ str_of_int (dep_count (dependencies data))
  ++ " (" ++ or_str (dep_type (dependencies data)) "unknown" ++ ")" ++ nl
  ++ "- Has Tests: " ++ str_of_bool (has_tests data) ++ nl
  ++ "- Test Coverage: " ++ test_coverage_field data ++ nl
  ++ "- Has Benchmarks: " ++ str_of_bool (has_benchmarks data) ++ nl
  ++ "- Has CI/CD: " ++ str_of_bool (has_ci data) ++ nl
  ++ "- Has Documentation: " ++ str_of_bool (has_docs data) ++ nl
  ++ "- Last Commit: " ++ last_commit_text (days_between (pushed_at data) now) ++ nl
  ++ "- Commit Activity (90 days): " ++ str_of_int (commits_last_90_days data)
  ++ " commits" ++ nl
  ++ "- Open Issues: " ++ str_of_int (open_issues data) ++ nl
  ++ "- Issue Close Rate: " ++ str_of_num (close_rate (issue_stats data)) ++ "%" ++ nl
  ++ "- Age: " ++ age_text (days_between (created_at data) (updated_at data)) ++ nl
  ++ "- License: " ++ or_str (license data) "No license" ++ nl
  ++ nl
  ++ "SPECIFIC CLAIMS TO VERIFY:" ++ nl
  ++ specific_claims_text data ++ nl
  ++ nl
  ++ "Generate a witty, sarcastic but fair roast. Focus on the gap between claims and reality."
  ++ nl
  ++ "Be creative with your roasts - make them memorable and quotable." ++ nl
  ++ "If the repo is actually honest and well-maintained, acknowledge that too." ++ nl.

Definition build_analysis_prompt (data : RepoData) (spicy : bool) : string :=
  let prompt := analysis data in
  if spicy then prompt ++ nl ++ SPICY_MODE_ADDITION else prompt.

End Composer.

End Prompts.

(** ** [roaster.py]: the scoring heuristic and the backends *)

Module Roaster.

(** One element of the local list [roasts]. *)
Record Roast : Set := mkRoast {
  r_claim : string;
  r_evidence : string;
  r_roast : string
}.

(** The two locals that the three checks update. *)
Record Acc : Set := mkAcc {
  roasts : list Roast;
  score : Z
}.

Definition of_category (cat : string) (cs : list Claim) : list Claim :=
  filter (fun c => String.eqb (category c) cat) cs.

(** The dicts appended to [roasts], for the claim [c0] that they quote. *)
Definition performance_entry (c0 : Claim) : Roast :=
  mkRoast (text c0) "No benchmarks found"
          (Py.dquote ++ "Trust me bro" ++ Py.dquote ++ " - The Benchmark").

Definition lightweight_entry (c0 : Claim) (dependency_count : Z) : Roast :=
  mkRoast (text c0) (Py.str_of_int dependency_count ++ " dependencies")
          ("'" ++ text c0 ++ "' is a state of mind, not a dependency count").

Definition production_entry (c0 : Claim) : Roast :=
  mkRoast (text c0) "No tests detected" "Production ready for chaos engineering".

(** [# Check performance claims] *)
Definition check_performance (d : RepoData) (a : Acc) : Acc :=
  match of_category "performance" (readme_claims d) with
  | c0 :: _ =>
      if negb (has_benchmarks d)
      then mkAcc (roasts a ++ [performance_entry c0]) (score a - 20)
      else a
  | [] => a
  end.

(** [# Check dependency claims] *)
Definition check_dependencies (d : RepoData) (a : Acc) : Acc :=
  match of_category "lightweight" (readme_claims d) with
  | c0 :: _ =>
      if 50 <? dep_count (dependencies d)
      then mkAcc (roasts a ++ [lightweight_entry c0 (dep_count (dependencies d))])
                 (score a - 15)
      else a
  | [] => a
  end.

(** [# Check production readiness] *)
Definition check_production (d : RepoData) (a : Acc) : Acc :=
  match of_category "production" (readme_claims d) with
  | c0 :: _ =>
      if negb (has_tests d)
      then mkAcc (roasts a ++ [production_entry c0]) (score a - 25)
      else a
  | [] => a
  end.

(** The state after the three checks, started from [roasts = []] and
    [score = 100]. *)
Definition checks (d : RepoData) : Acc :=
  check_production d (check_dependencies d (check_performance d (mkAcc [] 100))).

(** The glyphs that open the lines of the report, as the source file
    spells them. *)
Definition glyph_repository : string := "ğŸ“Š".
Definition glyph_stars : string := "â­".
Definition glyph_claim : string := "âŒ".
Definition glyph_clear : string := "âœ…".
Definition rule_line : string := "â”â”â”â”â”â”â”â”â”â”â”â”â”â”â”â”â”â”â”â”â”â”â”â”â”â”â”â”â”â”â”â”â”".

Definition header (d : RepoData) : string :=
  Py.nl ++ glyph_repository ++ " Repository: " ++ full_name d ++ Py.nl
  ++ glyph_stars ++ " Stars: " ++ Py.format_comma (stars d) ++ Py.nl ++ Py.nl.

(** The three lines written for one element of [roasts]. *)
Definition entry (r : Roast) : string :=
  glyph_claim ++ " CLAIM: " ++ Py.dquote ++ r_claim r ++ Py.dquote ++ Py.nl
  ++ "   EVIDENCE: " ++ r_evidence r ++ Py.nl
  ++ "   ROAST: " ++ r_roast r ++ Py.nl ++ Py.nl.

Definition entries (rs : list Roast) : string :=
  fold_left (fun out r => out ++ entry r) rs EmptyString.

Definition all_clear : string :=
  glyph_clear ++ " No obvious lies detected. Surprisingly honest!" ++ Py.nl ++ Py.nl.

(** The [if roasts: ... else: ...] that writes the body of the report and
    overrides the score when [roasts] is empty. *)
Definition body_and_score (a : Acc) : string * Z :=
  match roasts a with
  | [] => (all_clear, 95)
  | _ :: _ => (entries (roasts a), score a)
  end.

(** [# Score and verdict] *)
Definition verdict_of (score : Z) : string :=
  if 90 <=? score then "Honest AF"
  else if 70 <=? score then "Mostly True"
  else if 50 <=? score then "Marketing Spin"
  else if 30 <=? score then "Creative Liberties"
  else "README Fiction".

Definition footer (score : Z) (verdict : string) : string :=
  rule_line ++ Py.nl
  ++ "TRUTH SCORE: " ++ Py.str_of_int score ++ "/100" ++ Py.nl
  ++ "VERDICT: " ++ verdict ++ Py.nl
  ++ rule_line ++ Py.nl.

(** The values of [roasts], [score] and [verdict] when [quick_roast]
    returns. *)
Definition final_roasts (d : RepoData) : list Roast := roasts (checks d).
Definition final_score (d : RepoData) : Z := snd (body_and_score (checks d)).
Definition final_verdict (d : RepoData) : string := verdict_of (final_score d).

(** [AIRoaster.quick_roast]: the returned [output]. *)
Definition quick_roast (d : RepoData) : string :=
  header d
  ++ fst (body_and_score (checks d))
  ++ footer (final_score d) (final_verdict d).

(** *** The backends *)

(** What the roaster does to a text-generation backend. *)
Inductive event : Set :=
| OllamaClientCreated
| OllamaModelsListed
| OpenAIClientCreated (api_key : string)
| OllamaChat (model prompt : string)
| OpenAIChat (model prompt : string).

(** The part of the machine that the roaster meets: which client packages
    can be imported, and what the backends answer ([inr] carries the text of
    the exception that the call raises). *)
Record World : Type := mkWorld {
  ollama_installed : bool;
  openai_installed : bool;
  ollama_list : string + string;
  ollama_chat : string -> string -> string + string;
  openai_chat : string -> string -> string + string
}.

(** A computation that records its backend events and returns or raises. *)
Definition M (A : Type) : Type := list event * Py.result A.

Definition ret {A} (a : A) : M A := ([], Py.Return a).
Definition raise {A} (e : Py.exn) : M A := ([], Py.Raise e).
Definition emit (ev : event) : M unit := ([ev], Py.Return tt).
Definition bind {A B} (m : M A) (k : A -> M B) : M B :=
  match m with
  | (tr, Py.Return a) => let (tr', r) := k a in ((tr ++ tr')%list, r)
  | (tr, Py.Raise e) => (tr, Py.Raise e)
  end.

Notation "x <- m ;; k" := (bind m (fun x => k))
  (at level 61, m at next level, right associativity).
Notation "m ;;; k" := (bind m (fun _ => k))
  (at level 61, right associativity).

Inductive backend_name : Set := ollama | openai.

(** The attributes of an [AIRoaster]; [client] tells whether a client object
    was built. *)
Record AIRoaster : Set := mkAIRoaster {
  model : string;
  api_key : option string;
  client : bool;
  backend : option backend_name
}.

Section Backends.

Variable w : World.

Definition _init_ollama (self : AIRoaster) : M AIRoaster :=
  if ollama_installed w then
    emit OllamaClientCreated ;;;
    let self := mkAIRoaster (model self) (api_key self) true (Some ollama) in
    (* the inner [try] lists the models; whatever happens there is caught *)
    emit OllamaModelsListed ;;;
    ret self
  else
    raise (Py.ImportError
      ("Ollama not installed. Install with: pip install ollama" ++ Py.nl
       ++ "Also install Ollama: https://ollama.com/download")).

Definition _init_openai (self : AIRoaster) : M AIRoaster :=
  match api_key self with
  | Some (String c k) =>
      if openai_installed w then
        emit (OpenAIClientCreated (String c k)) ;;;
        ret (mkAIRoaster (model self) (api_key self) true (Some openai))
      else
        raise (Py.ImportError "OpenAI not installed. Install with: pip install openai")
  | _ =>
      raise (Py.ValueError
        ("OpenAI API key required for GPT models." ++ Py.nl
         ++ "Usage: gte roast <repo> --model gpt-4 --api-key YOUR_KEY"))
  end.

(** [AIRoaster.__init__] *)
Definition __init__ (model : string) (api_key : option string)
    (quick_mode : bool) : M AIRoaster :=
  let self := mkAIRoaster model api_key false None in
  if quick_mode then ret self
  else if Py.startswith model "gpt" then _init_openai self
  else _init_ollama self.

Definition no_client : string := "'NoneType' object has no attribute 'chat'".

Definition _roast_ollama (self : AIRoaster) (prompt : string) : M string :=
  let fail e :=
    raise (Py.RuntimeError ("Ollama error: " ++ e ++ Py.nl
                            ++ "Make sure Ollama is running: ollama serve")) in
  if client self then
    emit (OllamaChat (model self) prompt) ;;;
    match ollama_chat w (model self) prompt with
    | inl content => ret content
    | inr e => fail e
    end
  else fail no_client.

Definition _roast_openai (self : AIRoaster) (prompt : string) : M string :=
  let fail e := raise (Py.RuntimeError ("OpenAI error: " ++ e)) in
  if client self then
    emit (OpenAIChat (model self) prompt) ;;;
    match openai_chat w (model self) prompt with
    | inl content => ret content
    | inr e => fail e
    end
  else fail no_client.

Variable float_repr : float -> string.
Variable now : Z.

(** [AIRoaster.roast] *)
Definition roast (self : AIRoaster) (repo_data : RepoData) (spicy : bool)
    : M string :=
  let prompt := Prompts.build_analysis_prompt float_repr now repo_data spicy in
  match backend self with
  | Some ollama => _roast_ollama self prompt
  | _ => _roast_openai self prompt
  end.

End Backends.

End Roaster.

(** ** [cli.py]: the command [roast], step 2 *)

Module Cli.

Import Roaster.

(** How the step ends: with the roast text, with [sys.exit(code)], or with
    an exception that no handler of the command catches. *)
Inductive outcome : Set :=
| RoastText (roast_text : string)
| Exit (status : Z)
| Uncaught (e : Py.exn).

Section Command.

Variable w : World.
Variable float_repr : float -> string.
Variable now : Z.

(** [# Step 2: Generate roast], for the record [data] of step 1; the lines
    written to the console are left out. *)
Definition generate_roast (model : string) (api_key : option string)
    (spicy quick : bool) (data : RepoData) : list event * outcome :=
  if quick then
    match (roaster <- __init__ w model api_key false ;;
           ret (quick_roast data)) with
    | (tr, Py.Return roast_text) => (tr, RoastText roast_text)
    | (tr, Py.Raise e) => (tr, Uncaught e)
    end
  else
    match (roaster <- __init__ w model api_key false ;;
           roast w float_repr now roaster data spicy) with
    | (tr, Py.Return roast_text) => (tr, RoastText roast_text)
    | (tr, Py.Raise e) => (tr, Exit 1)
    end.

End Command.

(** *** [display_roast] *)

(** The argument of one [console.print] of [display_roast]. *)
Definition styled (style line : string) : string :=
  "[" ++ style ++ "]" ++ line ++ "[/" ++ style ++ "]".

Definition score_colour (score : Z) : string :=
  if 70 <=? score then "green" else if 50 <=? score then "yellow" else "red".

(** The score read from a line that starts with [TRUTH SCORE:]; [None] when
    the [try] block raises. *)
Definition score_of_line (line : string) : option Z :=
  let score_part := Py.strip (Py.replace line "TRUTH SCORE:" EmptyString) in
  match Py.split "/" score_part with
  | first :: _ => Py.int_of_str first
  | [] => None
  end.

(** The body of the loop: [None] is the bare [console.print()], [Some s]
    is [console.print(s)]. *)
Definition display_line (line : string) : option string :=
  let line := Py.strip line in
  if String.eqb line EmptyString then None
  else Some
    (if Py.startswith line "CLAIM:" then styled "yellow bold" line
     else if Py.startswith line "EVIDENCE:" then styled "cyan" line
     else if Py.startswith line "ROAST:" then styled "magenta italic" line
     else if Py.startswith line "TRUTH SCORE:" then
       match score_of_line line with
       | Some score => styled (score_colour score ++ " bold") line
       | None => styled "bold" line
       end
     else if Py.startswith line "VERDICT:" then styled "bold" line
     else if Py.startswith line "SPICIEST TAKE:" || Py.startswith line "💀"
     then styled "red bold" line
     else if Py.startswith line "━" || Py.startswith line "─"
     then styled "dim" line
     else line).

Definition display_roast (roast_text : string) : list (option string) :=
  map display_line (Py.split "010" roast_text).

End Cli.

(** ** The words of the specification

    Definitions that follow the specification rather than the sources; the
    properties below compare the sources with them. *)

Module Spec.

(** [needle] occurs in [hay]. *)
Definition within (needle hay : string) : Prop :=
  exists before after, hay = before ++ needle ++ after.

(** The three rules as the specification words them: a claim of the category
    exists and the evidence contradicts it. *)
Definition rule_performance (d : RepoData) : bool :=
  Prompts.has_category "performance" (readme_claims d) && negb (has_benchmarks d).

Definition rule_lightweight (d : RepoData) : bool :=
  Prompts.has_category "lightweight" (readme_claims d)
  && (50 <? dep_count (dependencies d)).

Definition rule_production (d : RepoData) : bool :=
  Prompts.has_category "production" (readme_claims d) && negb (has_tests d).

(** The pairs of a category and one of its patterns, categories in their
    order of declaration and, within a category, patterns in theirs. *)
Definition pattern_table : list (string * string) :=
  flat_map (fun entry => map (pair (fst entry)) (snd entry)) Analyzer.patterns.

(** The record that the specification asks for one pattern: none without a
    match, else one record with the first match and the number of matches. *)
Definition claim_of_pattern (text : string) (cp : string * string) : list Claim :=
  let found := Re.findall (Re.compile (snd cp)) text in
  match found with
  | [] => []
  | first :: _ => [mkClaim (fst cp) first (Z.of_nat (List.length found))]
  end.

Definition pattern_matches (text : string) (cp : string * string) : bool :=
  match Re.findall (Re.compile (snd cp)) text with
  | [] => false
  | _ :: _ => true
  end.

(** The form [owner/repo]: two segments, neither empty, around one slash. *)
Definition no_slash (s : string) : bool :=
  Py.all_chars (fun c => negb (Analyzer.is_slash c)) s.

Definition owner_repo_form (ref owner name : string) : Prop :=
  ref = owner ++ "/" ++ name
  /\ owner <> EmptyString /\ name <> EmptyString
  /\ no_slash owner = true /\ no_slash name = true.

(** What a match gives to one item of a pattern: one character of the class,
    at most one for [?], at least one for [+]. *)
Definition atom_takes (a : Re.atom) (t : string) : Prop :=
  match Re.a_quant a with
  | Re.One =>
      exists c, t = String c EmptyString /\ Re.cls_matches (Re.a_cls a) c = true
  | Re.Opt =>
      t = EmptyString \/ exists c, t = String c EmptyString /\ Re.cls_matches (Re.a_cls a) c = true
  | Re.Plus =>
      t <> EmptyString /\ Py.all_chars (Re.cls_matches (Re.a_cls a)) t = true
  end.

(** The items that ask for the character [c] itself, once. *)
Definition asks_char (c : ascii) (a : Re.atom) : bool :=
  match Re.a_quant a, Re.a_cls a with
  | Re.One, Re.Lit l => Ascii.eqb l c
  | _, _ => false
  end.

(** [ts] is a match of the pattern [p] somewhere in [s]. *)
Definition matches_in (p : Re.pattern) (ts : list string) (s : string) : Prop :=
  Forall2 atom_takes p ts /\ within (Re.whole ts) s.

(** The items that the search for tests can come to: those of a listing
    and, below each of its directories whose own listing can be read, those
    of that listing. *)
Inductive visible (items : list Analyzer.entry) : Analyzer.entry -> Prop :=
| visible_here (e : Analyzer.entry) : In e items -> visible items e
| visible_below (name : string) (sub : list Analyzer.entry) (e : Analyzer.entry) :
    In (Analyzer.EDir name (Some sub)) items -> visible sub e -> visible items e.

Definition file_or_dir (e : Analyzer.entry) : bool :=
  match e with
  | Analyzer.EOther _ => false
  | _ => true
  end.

(** The lowercased name of the item holds [word]. *)
Definition named (word : string) (e : Analyzer.entry) : bool :=
  Py.contains word (Py.lower (Analyzer.entry_name e)).

(** The first claim of a category, the one that an entry quotes. *)
Definition first_claim (cat : string) (d : RepoData) : Claim :=
  hd (mkClaim EmptyString EmptyString 0)
     (Roaster.of_category cat (readme_claims d)).

(** An item that counts as a test: a file or a directory whose lowercased
    name holds ["test"] or ["spec"]. *)
Definition hit (e : Analyzer.entry) : bool :=
  file_or_dir e && (named "test" e || named "spec" e).

(** The characters of [str(n)] for an [int]. *)
Definition sign_or_digit (c : ascii) : bool :=
  Py.is_digit c || Ascii.eqb c "-".

(** The backend that an event belongs to, and the events that send a
    prompt. *)
Definition is_ollama_event (ev : Roaster.event) : bool :=
  match ev with
  | Roaster.OllamaClientCreated | Roaster.OllamaModelsListed
  | Roaster.OllamaChat _ _ => true
  | _ => false
  end.

Definition is_openai_event (ev : Roaster.event) : bool :=
  match ev with
  | Roaster.OpenAIClientCreated _ | Roaster.OpenAIChat _ _ => true
  | _ => false
  end.

Definition is_chat_event (ev : Roaster.event) : bool :=
  match ev with
  | Roaster.OllamaChat _ _ | Roaster.OpenAIChat _ _ => true
  | _ => false
  end.

End Spec.

(** ** Records and repositories used as examples *)

Module Scenario.

(** A [requirements.txt] written as UTF-16 with its byte order mark, as
    a redirection from [pip freeze] leaves it in a Windows shell. *)
Definition utf16_requirements : string :=
  String (ascii_of_nat 255) (String (ascii_of_nat 254)
    (String "c" (String (ascii_of_nat 0)
      (String "l" (String (ascii_of_nat 0) EmptyString))))).

(** A Rust crate with Python bindings: [requirements.txt] and [Cargo.toml]
    at the root, nothing else that [_get_dependencies] asks for. *)
Definition maturin_repo (path : string) : option Analyzer.contents :=
  if String.eqb path "requirements.txt"
  then Some (Analyzer.ContentFile utf16_requirements)
  else if String.eqb path "Cargo.toml"
  then Some (Analyzer.ContentFile "[package]")
  else None.

(** The record of the scenario: the claims are extracted from a description
    with three "blazingly fast" and one "zero dependencies". *)
Definition blazing_repo : RepoData :=
  mkRepoData "awesome/framework" 50000
    (Some "A blazingly fast web framework")
    (Analyzer._extract_claims
       "Blazingly fast. Really blazingly fast! Did we say blazingly fast? Zero dependencies.")
    (mkDependencies 120 (Some "npm") [])
    false false true true (Some 0) 0 864000 864000 150 234
    (mkIssueStats 0 0 0 (PyInt 0)) (Some "MIT").

(** A record with tests, benchmarks and few dependencies, whatever it
    claims. *)
Definition honest_repo : RepoData :=
  mkRepoData "honest/tool" 1234 (Some "A tool")
    (Analyzer._extract_claims "Blazing fast, lightweight and production ready.")
    (mkDependencies 3 (Some "pip") ["click"; "rich"; "requests"])
    true true true true None 0 864000 864000 12 5
    (mkIssueStats 0 0 0 (PyInt 0)) (Some "MIT").

(** A record as [analyze] builds it for a repository where [_check_tests]
    finds nothing. *)
Definition untested_repo : RepoData :=
  mkRepoData "test/repo" 1000 (Some "A blazingly fast framework")
    [ mkClaim "performance" "blazingly fast" 3 ]
    (mkDependencies 50 (Some "npm") [])
    false false true false (Analyzer._estimate_test_coverage false)
    0 864000 864000 5 100 (mkIssueStats 70 30 100 (PyInt 30)) (Some "MIT").

(** The record [blazing_repo] with a production claim as well, and no
    tests. *)
Definition untested_blazing_repo : RepoData :=
  mkRepoData "awesome/framework" 50000
    (Some "A blazingly fast web framework")
    (Analyzer._extract_claims
       "Blazingly fast. Really blazingly fast! Did we say blazingly fast? Zero dependencies. Production ready.")
    (mkDependencies 120 (Some "npm") [])
    false false true true (Some 0) 0 864000 864000 150 234
    (mkIssueStats 0 0 0 (PyInt 0)) (Some "MIT").

(** A Rust crate on the platform: [Cargo.toml] is its only manifest, its
    README makes lightweight and production claims, its tree holds no test,
    and the count of its closed issues can be read. *)
Definition crate_repo : Analyzer.Repo :=
  Analyzer.mkRepo "rustacean/tinycrate" (Some "A tiny crate") 42 7
    0 864000 864000
    (Some "Lightweight and tiny. Production ready.")
    (Some [("Rust", 12345)])
    (Some [ Analyzer.EFile "Cargo.toml"; Analyzer.EFile "README.md";
            Analyzer.EDir "src" (Some [Analyzer.EFile "main.rs"]) ])
    (fun path => if String.eqb path "Cargo.toml"
                 then Some (Analyzer.ContentFile "[dependencies]")
                 else None)
    (Some 26) (Some 21) (Some "MIT").

(** The same repository without a README, and with a platform that fails
    on the closed issues. *)
Definition bare_repo : Analyzer.Repo :=
  Analyzer.mkRepo "rustacean/tinycrate" (Some "A tiny crate") 42 7
    0 864000 864000
    None
    (Some [("Rust", 12345)])
    (Some [ Analyzer.EFile "Cargo.toml";
            Analyzer.EDir "src" (Some [Analyzer.EFile "main.rs"]) ])
    (fun path => if String.eqb path "Cargo.toml"
                 then Some (Analyzer.ContentFile "[dependencies]")
                 else None)
    (Some 26) None (Some "MIT").

End Scenario.

(** * Properties *)

(** ** Text *)

Module TextFacts.

Import Spec.

Lemma append_assoc (a b c : string) : (a ++ b) ++ c = a ++ b ++ c.
Proof. induction a as [|x a IH]; simpl; [reflexivity|now rewrite IH]. Qed.

Lemma append_empty_r (a : string) : a ++ EmptyString = a.
Proof. induction a as [|x a IH]; simpl; [reflexivity|now rewrite IH]. Qed.

Lemma within_here (needle after : string) : within needle (needle ++ after).
Proof. now exists EmptyString, after. Qed.

Lemma within_here2 (n1 n2 after : string) :
  within (n1 ++ n2) (n1 ++ n2 ++ after).
Proof. exists EmptyString, after. simpl. now rewrite append_assoc. Qed.

Lemma within_here3 (n1 n2 n3 after : string) :
  within (n1 ++ n2 ++ n3) (n1 ++ n2 ++ n3 ++ after).
Proof. exists EmptyString, after. simpl. now rewrite !append_assoc. Qed.

Lemma within_skip (needle p hay : string) :
  within needle hay -> within needle (p ++ hay).
Proof.
  intros [b [a ->]]. exists (p ++ b), a. now rewrite append_assoc.
Qed.

Lemma within_append (needle hay tail : string) :
  within needle hay -> within needle (hay ++ tail).
Proof.
  intros [b [a ->]]. exists b, (a ++ tail). now rewrite !append_assoc.
Qed.

(** Brings both sides of an equation between texts to right-nested form,
    with the decimal numerals of the report written out. *)
Ltac flatten :=
  change (Py.str_of_int 120) with "120";
  change (Py.str_of_int 65) with "65";
  change (Py.str_of_int 95) with "95";
  repeat (progress (rewrite ?append_assoc; cbn [append])).

(** Walks down a right-nested concatenation to the place of the needle. *)
Ltac find_within :=
  first [ apply within_here3 | apply within_here2 | apply within_here
        | apply within_skip; find_within ].

End TextFacts.

(** ** The scoring heuristic *)

Module RoasterFacts.

Import Roaster Spec Scenario.

Lemma of_category_In (cat : string) (cs : list Claim) (c : Claim) :
  In c cs -> category c = cat ->
  exists c0 rest, of_category cat cs = c0 :: rest.
Proof.
  intros Hin Hcat.
  assert (Hf : In c (of_category cat cs)).
  { apply filter_In. split; [exact Hin|]. now apply String.eqb_eq. }
  destruct (of_category cat cs) as [|c0 rest]; [contradiction|].
  now exists c0, rest.
Qed.

Lemma of_category_none (cat : string) (cs : list Claim) :
  (forall c, In c cs -> category c <> cat) -> of_category cat cs = [].
Proof.
  intros H. induction cs as [|c cs IH]; [reflexivity|].
  unfold of_category in *. simpl.
  destruct (String.eqb_spec (category c) cat) as [E|E].
  - exfalso. apply (H c); [now left|exact E].
  - apply IH. intros c' Hc'. apply H. now right.
Qed.

Lemma has_category_of_category (cat : string) (cs : list Claim) :
  Prompts.has_category cat cs = false <-> of_category cat cs = [].
Proof.
  unfold Prompts.has_category, of_category.
  induction cs as [|c cs IH]; simpl; [tauto|].
  destruct (String.eqb (category c) cat); simpl; [|exact IH].
  split; discriminate.
Qed.

(** Each check leaves the accumulator alone when its rule does not fire. *)
Lemma check_performance_idle (d : RepoData) (a : Acc) :
  rule_performance d = false -> check_performance d a = a.
Proof.
  unfold rule_performance, check_performance. intros H.
  apply andb_false_iff in H. destruct H as [H|H].
  - apply has_category_of_category in H. now rewrite H.
  - rewrite H. now destruct (of_category _ _).
Qed.

Lemma check_dependencies_idle (d : RepoData) (a : Acc) :
  rule_lightweight d = false -> check_dependencies d a = a.
Proof.
  unfold rule_lightweight, check_dependencies. intros H.
  apply andb_false_iff in H. destruct H as [H|H].
  - apply has_category_of_category in H. now rewrite H.
  - rewrite H. now destruct (of_category _ _).
Qed.

Lemma check_production_idle (d : RepoData) (a : Acc) :
  rule_production d = false -> check_production d a = a.
Proof.
  unfold rule_production, check_production. intros H.
  apply andb_false_iff in H. destruct H as [H|H].
  - apply has_category_of_category in H. now rewrite H.
  - rewrite H. now destruct (of_category _ _).
Qed.

(** Each of the first two checks, when its rule fires, quotes the first
    claim of its category. *)
Lemma check_performance_fires (d : RepoData) (a : Acc) (c0 : Claim) (rest : list Claim) :
  of_category "performance" (readme_claims d) = c0 :: rest ->
  has_benchmarks d = false ->
  check_performance d a = mkAcc (roasts a ++ [performance_entry c0]) (score a - 20).
Proof.
  intros Hc Hb. unfold check_performance. now rewrite Hc, Hb.
Qed.

Lemma check_dependencies_fires (d : RepoData) (a : Acc) (c0 : Claim) (rest : list Claim) :
  of_category "lightweight" (readme_claims d) = c0 :: rest ->
  50 < dep_count (dependencies d) ->
  check_dependencies d a
  = mkAcc (roasts a ++ [lightweight_entry c0 (dep_count (dependencies d))])
          (score a - 15).
Proof.
  intros Hc Hn. unfold check_dependencies. rewrite Hc.
  apply Z.ltb_lt in Hn. now rewrite Hn.
Qed.

(** Case analysis on what the three checks of [quick_roast] test. *)
Ltac roast_cases d :=
  unfold final_verdict, final_roasts, final_score, body_and_score, checks,
    check_production, check_dependencies, check_performance;
  destruct (of_category "performance" (readme_claims d)) as [|?p ?ps];
  destruct (of_category "lightweight" (readme_claims d)) as [|?l ?ls];
  destruct (of_category "production" (readme_claims d)) as [|?r ?rs];
  destruct (has_benchmarks d); destruct (has_tests d);
  destruct (50 <? dep_count (dependencies d)); cbn.

(** C10: whatever the record, the score that [quick_roast] prints lies
    between 40 and 95, and the verdict is never "README Fiction". *)
Theorem quick_roast_score_at_least_40 (d : RepoData) :
  40 <= final_score d <= 95 /\ final_verdict d <> "README Fiction".
Proof.
  roast_cases d; (split; [lia | discriminate]).
Qed.

(** C1, as it is worded, fails on a record that also holds a production
    claim and has no tests: the third rule fires too, the score is
    100 - 20 - 15 - 25 = 40 and the verdict "Creative Liberties". *)
Lemma quick_roast_third_rule_fires :
  (exists c, In c (readme_claims untested_blazing_repo)
             /\ category c = "performance")
  /\ (exists c, In c (readme_claims untested_blazing_repo)
                /\ category c = "lightweight")
  /\ has_benchmarks untested_blazing_repo = false
  /\ dep_count (dependencies untested_blazing_repo) = 120
  /\ final_score untested_blazing_repo = 40
  /\ final_score untested_blazing_repo <> 65
  /\ final_verdict untested_blazing_repo = "Creative Liberties"
  /\ final_verdict untested_blazing_repo <> "Marketing Spin".
Proof.
  split; [|split].
  - exists (mkClaim "performance" "blazingly fast" 3).
    split; [vm_compute; left; reflexivity | reflexivity].
  - exists (mkClaim "lightweight" "zero dependencies" 1).
    split; [vm_compute; right; right; right; left; reflexivity | reflexivity].
  - repeat split; try (vm_compute; reflexivity); vm_compute; discriminate.
Qed.

(** C1, amended: a record with a performance claim and a lightweight claim,
    without benchmarks, with 120 dependencies, and for which the production
    rule does not fire (no production claim, or tests present), gets the
    performance entry and the lightweight entry and no other, quoting the
    first claim of each category, the score 100 - 20 - 15 = 65 and the
    verdict "Marketing Spin"; the report is the two lines of the header
    followed by the three lines of each entry and by the lines of the score
    and of the verdict between the two rules, and so holds each of them. *)
Theorem quick_roast_performance_and_lightweight (d : RepoData) :
  (exists c, In c (readme_claims d) /\ category c = "performance") ->
  (exists c, In c (readme_claims d) /\ category c = "lightweight") ->
  rule_production d = false ->
  has_benchmarks d = false ->
  dep_count (dependencies d) = 120 ->
  exists cp cl,
    hd_error (of_category "performance" (readme_claims d)) = Some cp
    /\ hd_error (of_category "lightweight" (readme_claims d)) = Some cl
    /\ final_roasts d = [performance_entry cp; lightweight_entry cl 120]
    /\ final_roasts d
       = [ mkRoast (text cp) "No benchmarks found"
                   (String "034" ("Trust me bro"
                                  ++ String "034" " - The Benchmark"));
           mkRoast (text cl) "120 dependencies"
                   ("'" ++ text cl
                    ++ "' is a state of mind, not a dependency count") ]
    /\ final_score d = 100 - 20 - 15
    /\ final_score d = 65
    /\ final_verdict d = "Marketing Spin"
    /\ quick_roast d
       = header d
         ++ (entry (performance_entry cp) ++ entry (lightweight_entry cl 120))
         ++ footer 65 "Marketing Spin"
    /\ quick_roast d
       = String "010" ("ğŸ“Š Repository: " ++ full_name d ++ String "010"
         ("â­ Stars: " ++ Py.format_comma (stars d) ++ String "010"
         (String "010" ("âŒ CLAIM: " ++ String "034" (text cp ++ String
         "034" (String "010" ("   EVIDENCE: No benchmarks found" ++ String
         "010" ("   ROAST: " ++ String "034" ("Trust me bro" ++ String
         "034" (" - The Benchmark" ++ String "010" (String "010"
         ("âŒ CLAIM: " ++ String "034" (text cl ++ String "034" (String
         "010" ("   EVIDENCE: 120 dependencies" ++ String "010"
         ("   ROAST: '" ++ text cl ++
         "' is a state of mind, not a dependency count" ++ String "010"
         (String "010"
         ("â”â”â”â”â”â”â”â”â”â”â”â”â”â”â”â”â”â”â”â”â”â”â”â”â”â”â”â”â”â”â”â”â”"
         ++ String "010" ("TRUTH SCORE: 65/100" ++ String "010"
         ("VERDICT: Marketing Spin" ++ String "010"
         ("â”â”â”â”â”â”â”â”â”â”â”â”â”â”â”â”â”â”â”â”â”â”â”â”â”â”â”â”â”â”â”â”â”"
         ++ String "010" EmptyString)))))))))))))))))))))
    /\ within
         ("âŒ CLAIM: " ++ String "034" (text cp ++ String "034" (String
          "010" ("   EVIDENCE: No benchmarks found" ++ String "010"
          ("   ROAST: " ++ String "034" ("Trust me bro" ++ String "034"
          (" - The Benchmark" ++ String "010" (String "010"
          EmptyString))))))))
         (quick_roast d)
    /\ within
         ("âŒ CLAIM: " ++ String "034" (text cl ++ String "034" (String
          "010" ("   EVIDENCE: 120 dependencies" ++ String "010"
          ("   ROAST: '" ++ text cl ++
          "' is a state of mind, not a dependency count" ++ String "010"
          (String "010" EmptyString))))))
         (quick_roast d)
    /\ within
         ("â”â”â”â”â”â”â”â”â”â”â”â”â”â”â”â”â”â”â”â”â”â”â”â”â”â”â”â”â”â”â”â”â”"
          ++ String "010" ("TRUTH SCORE: 65/100" ++ String "010"
          ("VERDICT: Marketing Spin" ++ String "010"
          ("â”â”â”â”â”â”â”â”â”â”â”â”â”â”â”â”â”â”â”â”â”â”â”â”â”â”â”â”â”â”â”â”â”"
          ++ String "010" EmptyString))))
         (quick_roast d).
Proof.
  intros [c1 [Hin1 Hc1]] [c2 [Hin2 Hc2]] Hprod Hbench Hdeps.
  destruct (of_category_In _ _ _ Hin1 Hc1) as [cp [ps Hp]].
  destruct (of_category_In _ _ _ Hin2 Hc2) as [cl [ls Hl]].
  assert (Hchecks : checks d
                    = mkAcc [performance_entry cp; lightweight_entry cl 120] 65).
  { unfold checks.
    rewrite (check_performance_fires d _ cp ps Hp Hbench).
    rewrite (check_dependencies_fires d _ cl ls Hl) by (rewrite Hdeps; lia).
    rewrite Hdeps. now rewrite check_production_idle. }
  assert (Hout : quick_roast d
                 = header d
                   ++ (entry (performance_entry cp)
                       ++ entry (lightweight_entry cl 120))
                   ++ footer 65 "Marketing Spin").
  { unfold quick_roast, final_verdict, final_score.
    rewrite Hchecks. reflexivity. }
  exists cp, cl.
  rewrite Hp, Hl.
  unfold final_verdict, final_roasts, final_score.
  rewrite Hchecks. repeat split; try reflexivity; try exact Hout.
  - rewrite Hout.
    unfold header, entry, footer, performance_entry, lightweight_entry,
      r_claim, r_evidence, r_roast, glyph_repository, glyph_stars,
      glyph_claim, rule_line, Py.dquote, Py.nl.
    TextFacts.flatten. reflexivity.
  - exists (header d),
      (entry (lightweight_entry cl 120) ++ footer 65 "Marketing Spin").
    rewrite Hout. unfold entry at 1.
    unfold performance_entry, r_claim, r_evidence, r_roast, glyph_claim,
      Py.dquote, Py.nl.
    TextFacts.flatten. reflexivity.
  - exists (header d ++ entry (performance_entry cp)),
      (footer 65 "Marketing Spin").
    rewrite Hout. unfold entry at 2.
    unfold lightweight_entry, r_claim, r_evidence, r_roast, glyph_claim,
      Py.dquote, Py.nl.
    TextFacts.flatten. reflexivity.
  - exists (header d ++ entry (performance_entry cp)
            ++ entry (lightweight_entry cl 120)),
      EmptyString.
    rewrite Hout. unfold footer, rule_line, Py.nl.
    TextFacts.flatten. reflexivity.
Qed.

Lemma quick_roast_performance_and_lightweight_witness :
  readme_claims blazing_repo
  = [ mkClaim "performance" "blazingly fast" 3;
      mkClaim "performance" "blazing" 3;
      mkClaim "lightweight" "zero dependencies" 1 ]
  /\ final_score blazing_repo = 65
  /\ final_verdict blazing_repo = "Marketing Spin"
  /\ quick_roast blazing_repo
     = String "010" ("ğŸ“Š Repository: awesome/framework" ++ String "010"
       ("â­ Stars: 50,000" ++ String "010" (String "010" ("âŒ CLAIM: " ++
       String "034" ("blazingly fast" ++ String "034" (String "010"
       ("   EVIDENCE: No benchmarks found" ++ String "010" ("   ROAST: "
       ++ String "034" ("Trust me bro" ++ String "034" (" - The Benchmark"
       ++ String "010" (String "010" ("âŒ CLAIM: " ++ String "034"
       ("zero dependencies" ++ String "034" (String "010"
       ("   EVIDENCE: 120 dependencies" ++ String "010"
       ("   ROAST: 'zero dependencies' is a state of mind, not a dependency count"
       ++ String "010" (String "010"
       ("â”â”â”â”â”â”â”â”â”â”â”â”â”â”â”â”â”â”â”â”â”â”â”â”â”â”â”â”â”â”â”â”â”"
       ++ String "010" ("TRUTH SCORE: 65/100" ++ String "010"
       ("VERDICT: Marketing Spin" ++ String "010"
       ("â”â”â”â”â”â”â”â”â”â”â”â”â”â”â”â”â”â”â”â”â”â”â”â”â”â”â”â”â”â”â”â”â”"
       ++ String "010" EmptyString))))))))))))))))))))).
Proof.
  split; [vm_compute; reflexivity|].
  destruct (quick_roast_performance_and_lightweight blazing_repo)
    as [cp [cl [_ [_ [_ [_ [_ [Hs [Hv _]]]]]]]]].
  - exists (mkClaim "performance" "blazingly fast" 3).
    split; [vm_compute; left; reflexivity | reflexivity].
  - exists (mkClaim "lightweight" "zero dependencies" 1).
    split; [vm_compute; right; right; left; reflexivity | reflexivity].
  - vm_compute; reflexivity.
  - reflexivity.
  - reflexivity.
  - split; [exact Hs|]. split; [exact Hv|].
    vm_compute; reflexivity.
Defined.

(** C3: when none of the three rules fires, [quick_roast] writes no entry
    but the "all clear" line, sets the score to 95 and gives the verdict
    "Honest AF": the report is the two lines of the header followed by that
    line and by the lines of the score and of the verdict between the two
    rules. *)
Theorem quick_roast_all_clear (d : RepoData) :
  rule_performance d = false ->
  rule_lightweight d = false ->
  rule_production d = false ->
  final_roasts d = []
  /\ final_score d = 95
  /\ final_verdict d = "Honest AF"
  /\ quick_roast d = header d ++ all_clear ++ footer 95 "Honest AF"
  /\ quick_roast d
     = String "010" ("ğŸ“Š Repository: " ++ full_name d ++ String "010"
       ("â­ Stars: " ++ Py.format_comma (stars d) ++ String "010" (String
       "010" ("âœ… No obvious lies detected. Surprisingly honest!" ++
       String "010" (String "010"
       ("â”â”â”â”â”â”â”â”â”â”â”â”â”â”â”â”â”â”â”â”â”â”â”â”â”â”â”â”â”â”â”â”â”"
       ++ String "010" ("TRUTH SCORE: 95/100" ++ String "010"
       ("VERDICT: Honest AF" ++ String "010"
       ("â”â”â”â”â”â”â”â”â”â”â”â”â”â”â”â”â”â”â”â”â”â”â”â”â”â”â”â”â”â”â”â”â”"
       ++ String "010" EmptyString)))))))))
  /\ within
       ("âœ… No obvious lies detected. Surprisingly honest!" ++ String
          "010" (String "010" EmptyString))
       (quick_roast d)
  /\ within
       ("â”â”â”â”â”â”â”â”â”â”â”â”â”â”â”â”â”â”â”â”â”â”â”â”â”â”â”â”â”â”â”â”â”"
          ++ String "010" ("TRUTH SCORE: 95/100" ++ String "010"
          ("VERDICT: Honest AF" ++ String "010"
          ("â”â”â”â”â”â”â”â”â”â”â”â”â”â”â”â”â”â”â”â”â”â”â”â”â”â”â”â”â”â”â”â”â”"
          ++ String "010" EmptyString))))
       (quick_roast d).
Proof.
  intros Hp Hl Hr.
  assert (Hchecks : checks d = mkAcc [] 100).
  { unfold checks.
    now rewrite check_performance_idle, check_dependencies_idle,
      check_production_idle. }
  assert (Hout : quick_roast d = header d ++ all_clear ++ footer 95 "Honest AF").
  { unfold quick_roast, final_verdict, final_score.
    rewrite Hchecks. reflexivity. }
  unfold final_verdict, final_roasts, final_score.
  rewrite Hchecks. repeat split; try reflexivity; try exact Hout.
  - rewrite Hout.
    unfold header, all_clear, footer, glyph_repository, glyph_stars,
      glyph_clear, rule_line, Py.nl.
    TextFacts.flatten. reflexivity.
  - exists (header d), (footer 95 "Honest AF").
    rewrite Hout. unfold all_clear, glyph_clear, Py.nl.
    TextFacts.flatten. reflexivity.
  - exists (header d ++ all_clear), EmptyString.
    rewrite Hout. unfold footer, rule_line, Py.nl.
    TextFacts.flatten. reflexivity.
Qed.

Lemma quick_roast_all_clear_witness :
  final_score honest_repo = 95
  /\ final_verdict honest_repo = "Honest AF"
  /\ quick_roast honest_repo
     = String "010" ("ğŸ“Š Repository: honest/tool" ++ String "010"
       ("â­ Stars: 1,234" ++ String "010" (String "010"
       ("âœ… No obvious lies detected. Surprisingly honest!" ++ String
       "010" (String "010"
       ("â”â”â”â”â”â”â”â”â”â”â”â”â”â”â”â”â”â”â”â”â”â”â”â”â”â”â”â”â”â”â”â”â”"
       ++ String "010" ("TRUTH SCORE: 95/100" ++ String "010"
       ("VERDICT: Honest AF" ++ String "010"
       ("â”â”â”â”â”â”â”â”â”â”â”â”â”â”â”â”â”â”â”â”â”â”â”â”â”â”â”â”â”â”â”â”â”"
       ++ String "010" EmptyString))))))))).
Proof.
  destruct (quick_roast_all_clear honest_repo) as [_ [Hs [Hv _]]];
    [vm_compute; reflexivity .. | ].
  split; [exact Hs|]. split; [exact Hv|]. vm_compute; reflexivity.
Defined.

End RoasterFacts.

(** ** The matcher *)

Module ReFacts.
Import Re Spec.

Lemma whole_cons (t : string) (ts : list string) : whole (t :: ts) = t ++ whole ts.
Proof.
  unfold whole. destruct ts as [|t' ts]; simpl.
  - now rewrite TextFacts.append_empty_r.
  - reflexivity.
Qed.

Lemma greedy_sound (f : ascii -> bool) (k : string -> option (list string)) :
  forall s t ts,
    greedy f k s = Some (t, ts) ->
    Py.all_chars f t = true /\ exists rest, s = t ++ rest /\ k rest = Some ts.
Proof.
  induction s as [|c s IH]; intros t ts H; simpl in H.
  - destruct (k EmptyString) as [ts'|] eqn:Ek; [|discriminate].
    injection H as <- <-. split; [reflexivity|]. now exists EmptyString.
  - destruct (f c) eqn:Ef.
    + destruct (greedy f k s) as [[t' ts']|] eqn:Eg.
      * injection H as <- <-.
        destruct (IH _ _ eq_refl) as [Hall [rest [-> Hk]]].
        split; [simpl; now rewrite Ef|]. now exists rest.
      * destruct (k (String c s)) as [ts'|] eqn:Ek; [|discriminate].
        injection H as <- <-. split; [reflexivity|]. now exists (String c s).
    + destruct (k (String c s)) as [ts'|] eqn:Ek; [|discriminate].
      injection H as <- <-. split; [reflexivity|]. now exists (String c s).
Qed.

Lemma match_here_sound :
  forall p s ts,
    match_here p s = Some ts ->
    Forall2 atom_takes p ts /\ exists rest, s = whole ts ++ rest.
Proof.
  induction p as [|a p IH]; intros s ts H; simpl in H.
  - injection H as <-. split; [constructor|]. now exists s.
  - destruct (a_quant a) eqn:Eq.
    + destruct s as [|c s]; [discriminate|].
      destruct (cls_matches (a_cls a) c) eqn:Ec; [|discriminate].
      destruct (match_here p s) as [ts'|] eqn:Em; [|discriminate].
      injection H as <-. destruct (IH _ _ Em) as [Hf [rest ->]].
      split.
      * constructor; [|exact Hf]. unfold atom_takes. rewrite Eq. now exists c.
      * exists rest. now rewrite whole_cons.
    + assert (Hskip : forall ts',
                option_map (cons EmptyString) (match_here p s) = Some ts' ->
                Forall2 atom_takes (a :: p) ts'
                /\ exists rest, s = whole ts' ++ rest).
      { intros ts' H'. destruct (match_here p s) as [ts0|] eqn:Em; [|discriminate].
        injection H' as <-. destruct (IH _ _ Em) as [Hf [rest Hs]].
        split.
        - constructor; [|exact Hf]. unfold atom_takes. rewrite Eq. now left.
        - exists rest. now rewrite whole_cons. }
      destruct s as [|c s]; [now apply Hskip|].
      destruct (cls_matches (a_cls a) c) eqn:Ec; [|now apply Hskip].
      destruct (match_here p s) as [ts'|] eqn:Em; [|now apply Hskip].
      injection H as <-. destruct (IH _ _ Em) as [Hf [rest ->]].
      split.
      * constructor; [|exact Hf]. unfold atom_takes. rewrite Eq. right. now exists c.
      * exists rest. now rewrite whole_cons.
    + destruct s as [|c s]; [discriminate|].
      destruct (cls_matches (a_cls a) c) eqn:Ec; [|discriminate].
      destruct (greedy (cls_matches (a_cls a)) (match_here p) s)
        as [[t ts']|] eqn:Eg; [|discriminate].
      injection H as <-. simpl.
      destruct (greedy_sound _ _ _ _ _ Eg) as [Hall [rest [-> Hk]]].
      destruct (IH _ _ Hk) as [Hf [rest' ->]].
      split.
      * constructor; [|exact Hf]. unfold atom_takes. rewrite Eq.
        split; [discriminate|]. simpl. now rewrite Ec.
      * exists rest'. rewrite whole_cons. simpl.
        now rewrite TextFacts.append_assoc.
Qed.

Lemma match_here_matches_in (p : pattern) (s : string) (ts : list string) :
  match_here p s = Some ts -> matches_in p ts s.
Proof.
  intros H. destruct (match_here_sound _ _ _ H) as [Hf [rest ->]].
  split; [exact Hf|]. apply TextFacts.within_here.
Qed.

Lemma matches_in_cons (p : pattern) (ts : list string) (c : ascii) (s : string) :
  matches_in p ts s -> matches_in p ts (String c s).
Proof.
  intros [Hf Hw]. split; [exact Hf|].
  now apply (TextFacts.within_skip _ (String c EmptyString)).
Qed.

Lemma search_sound (p : pattern) :
  forall s ts, search p s = Some ts -> matches_in p ts s.
Proof.
  induction s as [|c s IH]; intros ts H; simpl in H.
  - destruct (match_here p EmptyString) as [ts'|] eqn:Em; [|discriminate].
    injection H as <-. now apply match_here_matches_in.
  - destruct (match_here p (String c s)) as [ts'|] eqn:Em.
    + injection H as <-. now apply match_here_matches_in.
    + apply matches_in_cons. now apply IH.
Qed.

Lemma scan_sound (p : pattern) :
  forall s skip m,
    In m (scan p s skip) -> exists ts, whole ts = m /\ matches_in p ts s.
Proof.
  induction s as [|c s IH]; intros skip m H; simpl in H.
  - destruct skip; [|contradiction].
    destruct (match_here p EmptyString) as [ts|] eqn:Em; [|contradiction].
    destruct H as [<-|[]]. exists ts. split; [reflexivity|].
    now apply match_here_matches_in.
  - assert (Hrest : forall k, In m (scan p s k) ->
              exists ts, whole ts = m /\ matches_in p ts (String c s)).
    { intros k Hk. destruct (IH _ _ Hk) as [ts [E Hm]].
      exists ts. split; [exact E|]. now apply matches_in_cons. }
    destruct skip as [|skip]; [|now apply Hrest with skip].
    destruct (match_here p (String c s)) as [ts|] eqn:Em.
    + destruct H as [<-|H]; [|now apply Hrest with (Nat.pred (String.length (whole ts)))].
      exists ts. split; [reflexivity|]. now apply match_here_matches_in.
    + now apply Hrest with O.
Qed.

Lemma findall_sound (p : pattern) (s m : string) :
  In m (findall p s) -> exists ts, whole ts = m /\ matches_in p ts s.
Proof. apply scan_sound. Qed.

End ReFacts.

(** ** The prompt composer *)

Module PromptsFacts.

Import Prompts Spec Scenario.

(** C6, as the specification words it, fails below 30 days: the composer
    appends a remark to the bucket of days. *)
Lemma age_text_10_not_bare : age_text 10 <> "10 days old".
Proof. vm_compute. discriminate. Qed.

(** C6, amended: a gap of [n] days is written "n days old (fresh!)" below
    30, "(n div 30) months old" below 365 and "(n div 365) years old" from
    365 on, the quotients being truncated; 10 days give "10 days old (fresh!)"
    and 400 days give "1 years old". *)
Theorem age_text_buckets (n : Z) :
  (n < 30 -> age_text n = Py.str_of_int n ++ " days old (fresh!)")
  /\ (30 <= n < 365 ->
      age_text n = Py.str_of_int (n / 30) ++ " months old"
      /\ n / 30 = Z.quot n 30)
  /\ (365 <= n ->
      age_text n = Py.str_of_int (n / 365) ++ " years old"
      /\ n / 365 = Z.quot n 365)
  /\ age_text 10 = "10 days old (fresh!)"
  /\ age_text 400 = "1 years old".
Proof.
  unfold age_text. repeat split.
  - intros H. apply Z.ltb_lt in H. now rewrite H.
  - destruct H as [H1 H2]. apply Z.ltb_ge in H1. apply Z.ltb_lt in H2.
    now rewrite H1, H2.
  - destruct H as [H1 H2]. symmetry. apply Z.quot_div_nonneg; lia.
  - assert (H1 : (n <? 30) = false) by (apply Z.ltb_ge; lia).
    assert (H2 : (n <? 365) = false) by (apply Z.ltb_ge; lia).
    now rewrite H1, H2.
  - symmetry. apply Z.quot_div_nonneg; lia.
Qed.

Lemma age_text_buckets_witness :
  age_text 29 = "29 days old (fresh!)"
  /\ age_text 59 = "1 months old"
  /\ age_text 729 = "1 years old".
Proof.
  destruct (age_text_buckets 29) as [H29 _].
  destruct (age_text_buckets 59) as [_ [H59 _]].
  destruct (age_text_buckets 729) as [_ [_ [H729 _]]].
  split; [|split].
  - rewrite H29 by lia. reflexivity.
  - destruct H59 as [H _]; [lia|]. rewrite H. reflexivity.
  - destruct H729 as [H _]; [lia|]. rewrite H. reflexivity.
Defined.

(** The line of the prompt that carries the age. *)
Lemma age_line_in_prompt (float_repr : float -> string) (now : Z)
    (data : RepoData) (spicy : bool) :
  within
    ("- Age: " ++ age_text (days_between (created_at data) (updated_at data))
     ++ Py.nl)
    (build_analysis_prompt float_repr now data spicy).
Proof.
  unfold build_analysis_prompt.
  assert (H : within
                ("- Age: "
                 ++ age_text (days_between (created_at data) (updated_at data))
                 ++ Py.nl)
                (analysis float_repr now data)).
  { unfold analysis. TextFacts.find_within. }
  destruct spicy; [|exact H].
  now apply TextFacts.within_append.
Qed.

(** C8, at the record [untested_repo]: the coverage is present and is 0,
    yet the composer writes the placeholder. *)
Theorem zero_coverage_written_as_unknown (float_repr : float -> string) (now : Z) :
  test_coverage untested_repo = Some 0
  /\ test_coverage_field untested_repo = "Unknown"
  /\ within ("- Test Coverage: Unknown" ++ Py.nl)
       (build_analysis_prompt float_repr now untested_repo false)
  /\ test_coverage_field untested_repo <> Py.str_of_int 0.
Proof.
  repeat split; try reflexivity.
  - unfold build_analysis_prompt, analysis.
    change (test_coverage_field untested_repo) with "Unknown".
    TextFacts.find_within.
  - vm_compute. discriminate.
Qed.

(** The placeholder is written exactly when the coverage is absent or 0. *)
Lemma test_coverage_field_unknown (data : RepoData) :
  test_coverage_field data = "Unknown"
  <-> test_coverage data = None \/ test_coverage data = Some 0.
Proof.
  unfold test_coverage_field, Py.or_int.
  destruct (test_coverage data) as [n|]; [|tauto].
  destruct (Z.eqb_spec n 0) as [->|Hn]; [tauto|].
  split.
  - intros H. exfalso.
    assert (Hd : forall u, NilZero.string_of_uint u <> "Unknown").
    { intros u. destruct u; simpl; discriminate. }
    unfold Py.str_of_int, NilZero.string_of_int in H.
    destruct (Z.to_int n); [now apply (Hd d)|discriminate].
  - intros [H|H]; [discriminate|]. injection H as ->. contradiction.
Qed.

End PromptsFacts.

(** ** The analyzer *)

Module AnalyzerFacts.

Import Analyzer Spec Scenario.

(** *** Claim extraction *)

Lemma fold_left_append {A B : Type} (f : A -> list B) (g : list B -> A -> list B) :
  (forall acc x, g acc x = acc ++ f x)%list ->
  forall l acc, (fold_left g l acc = acc ++ flat_map f l)%list.
Proof.
  intros Hg l. induction l as [|x l IH]; intros acc; simpl.
  - now rewrite app_nil_r.
  - now rewrite IH, Hg, <- app_assoc.
Qed.

Lemma try_pattern_appends (text cat : string) (claims : list Claim) (pat : string) :
  (try_pattern text cat claims pat = claims ++ claim_of_pattern text (cat, pat))%list.
Proof.
  unfold try_pattern, claim_of_pattern. simpl.
  destruct (Re.findall (Re.compile pat) text); [now rewrite app_nil_r|reflexivity].
Qed.

Lemma flat_map_table {A B C : Type} (f : A * B -> list C) (tbl : list (A * list B)) :
  flat_map f (flat_map (fun entry => map (pair (fst entry)) (snd entry)) tbl)
  = flat_map (fun entry => flat_map (fun b => f (fst entry, b)) (snd entry)) tbl.
Proof.
  induction tbl as [|[a bs] tbl IH]; simpl; [reflexivity|].
  rewrite flat_map_app, IH. f_equal.
  induction bs as [|b bs IHb]; simpl; [reflexivity|now rewrite IHb].
Qed.

Lemma extract_claims_flat (readme : string) :
  _extract_claims readme
  = flat_map (claim_of_pattern (Py.lower readme)) pattern_table.
Proof.
  unfold _extract_claims, pattern_table.
  rewrite flat_map_table.
  rewrite (fold_left_append
             (fun entry => flat_map
                (fun pat => claim_of_pattern (Py.lower readme) (fst entry, pat))
                (snd entry))).
  - reflexivity.
  - intros acc entry.
    apply (fold_left_append
             (fun pat => claim_of_pattern (Py.lower readme) (fst entry, pat))).
    intros acc' pat. apply try_pattern_appends.
Qed.

Lemma length_flat_map_claims (text : string) (tbl : list (string * string)) :
  List.length (flat_map (claim_of_pattern text) tbl)
  = List.length (filter (pattern_matches text) tbl).
Proof.
  induction tbl as [|cp tbl IH]; simpl; [reflexivity|].
  rewrite length_app, IH.
  unfold claim_of_pattern, pattern_matches.
  destruct (Re.findall (Re.compile (snd cp)) text); reflexivity.
Qed.

(** The first element of [findall] is the match that [search] finds. *)
Lemma findall_head_search (p : Re.pattern) (s first : string) (others : list string) :
  Re.findall p s = first :: others ->
  exists ts, Re.search p s = Some ts /\ Re.whole ts = first.
Proof.
  unfold Re.findall. revert first others.
  induction s as [|c s IH]; intros first others H; simpl in *.
  - destruct (Re.match_here p EmptyString) as [ts|]; [|discriminate].
    injection H as H _. now exists ts.
  - destruct (Re.match_here p (String c s)) as [ts|].
    + injection H as H _. now exists ts.
    + now apply IH with others.
Qed.

(** C2: for every document, [_extract_claims] returns, for the pairs of
    category and pattern in the order of declaration, one record for each
    pattern that matches the lowercased document and none for the others; the
    record carries the first match, which is the leftmost one, and the number
    of matches; and one category can give several records. *)
Theorem extract_claims_one_record_per_matching_pattern :
  (forall readme,
     _extract_claims readme
     = flat_map (claim_of_pattern (Py.lower readme)) pattern_table
     /\ List.length (_extract_claims readme)
        = List.length (filter (pattern_matches (Py.lower readme)) pattern_table))
  /\ (forall text cat pat first others,
        Re.findall (Re.compile pat) text = first :: others ->
        claim_of_pattern text (cat, pat)
        = [mkClaim cat first (Z.of_nat (S (List.length others)))]
        /\ exists ts, Re.search (Re.compile pat) text = Some ts
                      /\ Re.whole ts = first)
  /\ (forall text cat pat,
        Re.findall (Re.compile pat) text = [] ->
        claim_of_pattern text (cat, pat) = [])
  /\ map fst patterns
     = ["performance"; "simplicity"; "production"; "lightweight"; "modern";
        "comprehensive"]
  /\ _extract_claims "Blazingly fast"
     = [mkClaim "performance" "blazingly fast" 1;
        mkClaim "performance" "blazing" 1].
Proof.
  split; [|split; [|split; [|split]]].
  - intros readme. split.
    + apply extract_claims_flat.
    + rewrite extract_claims_flat. apply length_flat_map_claims.
  - intros text cat pat first others H. split.
    + unfold claim_of_pattern. simpl. now rewrite H.
    + now apply findall_head_search with others.
  - intros text cat pat H. unfold claim_of_pattern. simpl. now rewrite H.
  - reflexivity.
  - vm_compute. reflexivity.
Qed.

Lemma extract_claims_one_record_per_matching_pattern_witness :
  Re.findall (Re.compile "\d+x\s+faster") "10x faster, 3x  faster"
  = ["10x faster"; "3x  faster"]
  /\ claim_of_pattern "10x faster, 3x  faster" ("performance", "\d+x\s+faster")
     = [mkClaim "performance" "10x faster" 2]
  /\ claim_of_pattern "10x faster" ("performance", "optimized") = [].
Proof.
  destruct extract_claims_one_record_per_matching_pattern as [_ [H1 [H0 _]]].
  split; [vm_compute; reflexivity|]. split.
  - destruct (H1 "10x faster, 3x  faster" "performance" "\d+x\s+faster"
                "10x faster" ["3x  faster"]) as [H _];
      [vm_compute; reflexivity | exact H].
  - apply H0. vm_compute. reflexivity.
Defined.

(** Every record of [_extract_claims] comes from a pattern of its category
    in the table, quotes a match of that pattern in the lowercased document,
    and counts at least one match. *)
Lemma extract_claims_texts_occur (readme : string) (c : Claim) :
  In c (_extract_claims readme) ->
  exists pat ts,
    In (category c, pat) pattern_table
    /\ Re.whole ts = text c
    /\ matches_in (Re.compile pat) ts (Py.lower readme)
    /\ (1 <= count c)%Z.
Proof.
  rewrite extract_claims_flat. intros H.
  apply in_flat_map in H. destruct H as [[cat pat] [Htbl Hc]].
  unfold claim_of_pattern in Hc. simpl in Hc.
  destruct (Re.findall (Re.compile pat) (Py.lower readme)) as [|first others] eqn:Ef;
    [contradiction|].
  destruct Hc as [<-|[]]. simpl.
  destruct (ReFacts.findall_sound (Re.compile pat) (Py.lower readme) first)
    as [ts [Hw Hm]]; [rewrite Ef; now left|].
  exists pat, ts. repeat split; try assumption; try apply Hm. lia.
Qed.

(** The patterns are read in full: their source text is found again from
    what [compile] returns, and none of those of the table has a group. *)
Lemma patterns_read_back :
  forallb (fun cp => String.eqb (Re.source (Re.compile (snd cp))) (snd cp))
          pattern_table = true
  /\ forallb (fun cp => forallb (fun a => negb (Re.a_group a)) (Re.compile (snd cp)))
             pattern_table = true
  /\ Re.source github_re = "github\.com/([^/]+)/([^/]+)".
Proof. repeat split; vm_compute; reflexivity. Qed.

(** *** Repository references *)

Lemma count_char_append (c : ascii) (a b : string) :
  Py.count_char c (a ++ b) = (Py.count_char c a + Py.count_char c b)%nat.
Proof. induction a as [|x a IH]; simpl; [reflexivity|rewrite IH; lia]. Qed.

Lemma no_slash_count (s : string) :
  no_slash s = true -> Py.count_char "/" s = O.
Proof.
  unfold no_slash, is_slash. induction s as [|c s IH]; simpl; [reflexivity|].
  intros H. apply andb_true_iff in H. destruct H as [Hc Hs].
  destruct (Ascii.eqb c "/"); [discriminate|]. now rewrite IH.
Qed.

Lemma split_no_slash (s : string) :
  no_slash s = true -> Py.split "/" s = [s].
Proof.
  unfold no_slash, is_slash. induction s as [|c s IH]; simpl; [reflexivity|].
  intros H. apply andb_true_iff in H. destruct H as [Hc Hs].
  destruct (Ascii.eqb c "/"); [discriminate|]. now rewrite IH.
Qed.

Lemma split_owner_repo (owner name : string) :
  no_slash owner = true -> no_slash name = true ->
  Py.split "/" (owner ++ "/" ++ name) = [owner; name].
Proof.
  intros Ho Hn. change ("/" ++ name) with (String "/" name).
  revert Ho. unfold no_slash at 1, is_slash.
  induction owner as [|c owner IH]; simpl.
  - intros _. now rewrite split_no_slash.
  - intros H. apply andb_true_iff in H. destruct H as [Hc Hs].
    destruct (Ascii.eqb c "/"); [discriminate|]. now rewrite IH.
Qed.

(** A match holds each character that its pattern asks for as a plain
    item, as many times as the pattern asks for it. *)
Lemma match_counts_literals (c : ascii) (p : Re.pattern) (ts : list string) :
  Forall2 atom_takes p ts ->
  (List.length (filter (asks_char c) p) <= Py.count_char c (Re.whole ts))%nat.
Proof.
  induction 1 as [|a t p ts Ha _ IH]; [apply Nat.le_refl|].
  rewrite ReFacts.whole_cons, count_char_append. simpl.
  destruct (asks_char c a) eqn:Ea; [|lia].
  unfold asks_char in Ea. unfold atom_takes in Ha.
  destruct (Re.a_quant a); try discriminate.
  destruct (Re.a_cls a) as [l| | | |l]; try discriminate.
  destruct Ha as [c' [-> Hc']]. simpl in Hc'.
  apply Ascii.eqb_eq in Hc'. subst c'. simpl. rewrite Ea. simpl. lia.
Qed.

Lemma github_match_two_slashes (ts : list string) :
  Forall2 atom_takes github_re ts -> (2 <= Py.count_char "/" (Re.whole ts))%nat.
Proof.
  intros H. apply (match_counts_literals "/") in H. exact H.
Qed.

(** A reference of the form [owner/repo] that holds no [github.com] parses
    to its two segments. *)
Lemma parse_owner_repo_accepted (ref owner name : string) :
  owner_repo_form ref owner name ->
  Py.rstrip_of is_slash (Py.strip ref) = ref ->
  Py.contains "github.com" ref = false ->
  _parse_repo_url ref = Py.Return (owner, name).
Proof.
  intros [-> [_ [_ [Ho Hn]]]] Hnorm Hhost.
  unfold _parse_repo_url. rewrite Hnorm, Hhost.
  now rewrite split_owner_repo.
Qed.

(** A reference of the form [owner/repo] that holds [github.com] is refused:
    the pattern of the URL branch needs two slashes, the reference has one. *)
Lemma parse_owner_repo_naming_host_refused (ref owner name : string) :
  owner_repo_form ref owner name ->
  Py.rstrip_of is_slash (Py.strip ref) = ref ->
  Py.contains "github.com" ref = true ->
  _parse_repo_url ref = Py.Raise (invalid_format ref).
Proof.
  intros [Href [_ [_ [Ho Hn]]]] Hnorm Hhost.
  unfold _parse_repo_url. rewrite Hnorm, Hhost.
  destruct (Re.search github_re ref) as [ts|] eqn:Es; [exfalso|reflexivity].
  destruct (ReFacts.search_sound _ _ _ Es) as [Hf [before [after Hw]]].
  pose proof (github_match_two_slashes ts Hf) as H2.
  assert (H1 : Py.count_char "/" ref = 1%nat).
  { rewrite Href, !count_char_append, (no_slash_count _ Ho), (no_slash_count _ Hn).
    reflexivity. }
  rewrite Hw, !count_char_append in H1. lia.
Qed.

(** The three references of the specification parse to the same identity,
    and a word without a slash is refused. *)
Lemma parse_repo_url_examples :
  _parse_repo_url "https://github.com/facebook/react" = Py.Return ("facebook", "react")
  /\ _parse_repo_url "github.com/facebook/react" = Py.Return ("facebook", "react")
  /\ _parse_repo_url "facebook/react" = Py.Return ("facebook", "react")
  /\ _parse_repo_url "not-a-valid-ref" = Py.Raise (invalid_format "not-a-valid-ref").
Proof. repeat split; vm_compute; reflexivity. Qed.

(** C5, at the reference [mojombo/mojombo.github.com]: it has the form
    [owner/repo], and [_parse_repo_url] raises the format error, because the
    name of the repository holds the text [github.com]. *)
Theorem parse_repo_url_refuses_owner_repo_naming_host :
  owner_repo_form "mojombo/mojombo.github.com" "mojombo" "mojombo.github.com"
  /\ _parse_repo_url "mojombo/mojombo.github.com"
     = Py.Raise (invalid_format "mojombo/mojombo.github.com")
  /\ _parse_repo_url "https://github.com/mojombo/mojombo.github.com"
     = Py.Return ("mojombo", "mojombo.github.com").
Proof.
  unfold owner_repo_form.
  repeat split; try discriminate; vm_compute; reflexivity.
Qed.

(** *** Dependencies *)

Section DependencyFacts.

Variable json_loads : string -> option json.

(** A manifest that is found and read ends the probe, whatever comes after
    it, when the manifests before it are missing. *)
Lemma probe_first_found (get_contents : string -> option contents)
    (before after : list (string * string)) (filename type : string)
    (content : contents) (deps deps' : Dependencies) :
  (forall f t, In (f, t) before -> get_contents f = None) ->
  get_contents filename = Some content ->
  read_manifest json_loads filename content
    (mkDependencies (dep_count deps) (Some type) (dep_list deps)) = Some deps' ->
  probe json_loads get_contents (before ++ (filename, type) :: after) deps = deps'.
Proof.
  intros Hmiss Hfound Hread.
  induction before as [|[f t] before IH]; simpl.
  - now rewrite Hfound, Hread.
  - rewrite (Hmiss f t) by now left.
    apply IH. intros f' t' Hin. apply (Hmiss f' t'). now right.
Qed.

(** C4, at the repository [maturin_repo]: [requirements.txt] exists, is
    probed before [Cargo.toml] and cannot be decoded; the probe goes on and
    the record is the one of [Cargo.toml]. *)
Theorem get_dependencies_passes_unreadable_manifest :
  maturin_repo "requirements.txt" = Some (ContentFile utf16_requirements)
  /\ maturin_repo "package.json" = None
  /\ Py.decode_utf8 utf16_requirements = None
  /\ _get_dependencies json_loads maturin_repo
     = mkDependencies 0 (Some "cargo") [].
Proof. repeat split; vm_compute; reflexivity. Qed.

(** The same manifest alone leaves the kind [pip] with no name. *)
Lemma get_dependencies_unreadable_alone :
  _get_dependencies json_loads
    (fun path => if String.eqb path "requirements.txt"
                 then Some (ContentFile utf16_requirements) else None)
  = mkDependencies 0 (Some "pip") [].
Proof. vm_compute. reflexivity. Qed.

End DependencyFacts.

(** *** Issue statistics *)

(** [round_half_even n d] is within half a unit of [n / d]. *)
Lemma round_half_even_nearest (n d : Z) :
  0 < d -> 2 * Z.abs (n - d * PyNum.round_half_even n d) <= d.
Proof.
  intros Hd. unfold PyNum.round_half_even.
  pose proof (Z.div_mod n d ltac:(lia)) as Hdm.
  pose proof (Z.mod_pos_bound n d Hd) as Hr.
  destruct (Z.compare_spec (2 * (n mod d)) d) as [E|E|E];
    [destruct (Z.even (n / d))| |]; nia.
Qed.

(** The division returns whenever the divisor is not 0. *)
Lemma truediv_nonzero (a b : Z) :
  b <> 0 ->
  PyNum.truediv a b
  = Some (PrimFloat.div (PyNum.float_of_int a) (PyNum.float_of_int b)).
Proof.
  intros Hb. unfold PyNum.truediv.
  now destruct (Z.eqb_spec b 0).
Qed.

(** Equality of two decoded floats can be computed. *)
Lemma spec_float_eq_dec (x y : spec_float) : {x = y} + {x <> y}.
Proof.
  decide equality;
    first [apply Pos.eq_dec | apply Z.eq_dec | apply Bool.bool_dec].
Defined.

(** For every pair of counts up to 100, the rate is the binary64 quotient by
    10 of one of the two whole numbers of tenths around [1000 * c / t], and
    that number is within half a tenth of the percentage. *)
Lemma close_rate_range_checked :
  forallb (fun o =>
    forallb (fun c =>
      let t := Z.of_nat o + Z.of_nat c in
      (t =? 0)
      || existsb (fun k =>
           (2 * Z.abs (t * k - 1000 * Z.of_nat c) <=? t)
           && match close_rate (_get_issue_stats (Some (Z.of_nat o))
                                                 (Some (Z.of_nat c))) with
              | PyFloat f =>
                  if spec_float_eq_dec (Prim2SF f)
                       (Prim2SF (PrimFloat.div
                                   (PrimFloat.of_uint63 (Uint63.of_Z k)) 10))
                  then true else false
              | PyInt _ => false
              end)
           [1000 * Z.of_nat c / t; 1000 * Z.of_nat c / t + 1])
      (seq 0 101))
    (seq 0 101) = true.
Proof. vm_compute. reflexivity. Qed.

Lemma close_rate_range (o c : Z) :
  0 <= o <= 100 -> 0 <= c <= 100 -> 0 < o + c ->
  exists k,
    2 * Z.abs ((o + c) * k - 1000 * c) <= o + c
    /\ close_rate (_get_issue_stats (Some o) (Some c))
       = PyFloat (PrimFloat.div (PrimFloat.of_uint63 (Uint63.of_Z k)) 10).
Proof.
  intros Ho Hc Ht.
  pose proof close_rate_range_checked as H.
  rewrite forallb_forall in H.
  specialize (H (Z.to_nat o) ltac:(apply in_seq; lia)).
  rewrite forallb_forall in H.
  specialize (H (Z.to_nat c) ltac:(apply in_seq; lia)).
  rewrite !Z2Nat.id in H by lia. cbv zeta in H.
  apply orb_true_iff in H. destruct H as [H|H];
    [apply Z.eqb_eq in H; lia|].
  apply existsb_exists in H. destruct H as [k [_ H]].
  apply andb_true_iff in H. destruct H as [Hk Hr].
  exists k. split; [now apply Z.leb_le in Hk|].
  destruct (close_rate (_get_issue_stats (Some o) (Some c))) as [z|f];
    [discriminate|].
  destruct (spec_float_eq_dec _ _) as [E|E]; [|discriminate].
  f_equal. now apply Prim2SF_inj.
Qed.

(** C9: in every record of [_get_issue_stats], a total of 0 comes with the
    rate 0; when the two counts are read, the body ends without an exception
    (so without a division by zero), and a total that is not 0 comes with
    the rate [round(closed / total * 100, 1)].  That rate is the percentage
    to one decimal: 1 closed of 3 gives 33.3, 2 of 3 give 66.7, 247 of 2000
    give 12.3 (12.35 is held from below by binary64), 1 of 16 gives 6.2 (the
    tie 6.25 goes to the even tenth), 5 of 5 give 100.0, 1 of 4 gives 25.0
    and 0 of 5 gives the float 0.0; and for counts up to 100 it is the
    binary64 value of [k / 10] for a whole number [k] of tenths within half
    a tenth of [100 * closed / total]. *)
#[warnings="-inexact-float"]
Theorem issue_close_rate_guarded (open_count closed_count : option Z) :
  let stats := _get_issue_stats open_count closed_count in
  (issues_total stats = 0 -> close_rate stats = PyInt 0)
  /\ (forall o c,
        open_count = Some o -> closed_count = Some c ->
        issue_stats_body open_count closed_count = Some stats
        /\ issues_total stats = o + c
        /\ (0 <= o -> 0 <= c -> o + c <> 0 ->
            exists q,
              PyNum.truediv c (o + c) = Some q
              /\ close_rate stats
                 = PyFloat (PyNum.round1
                              (PrimFloat.mul q (PyNum.float_of_int 100)))))
  /\ (close_rate (_get_issue_stats (Some 2) (Some 1)) = PyFloat 33.3
      /\ close_rate (_get_issue_stats (Some 1) (Some 2)) = PyFloat 66.7
      /\ close_rate (_get_issue_stats (Some 1753) (Some 247)) = PyFloat 12.3
      /\ close_rate (_get_issue_stats (Some 15) (Some 1)) = PyFloat 6.2
      /\ close_rate (_get_issue_stats (Some 0) (Some 5)) = PyFloat 100
      /\ close_rate (_get_issue_stats (Some 3) (Some 1)) = PyFloat 25
      /\ close_rate (_get_issue_stats (Some 5) (Some 0)) = PyFloat 0)
  /\ (forall o c,
        0 <= o <= 100 -> 0 <= c <= 100 -> 0 < o + c ->
        exists k,
          2 * Z.abs ((o + c) * k - 1000 * c) <= o + c
          /\ close_rate (_get_issue_stats (Some o) (Some c))
             = PyFloat (PrimFloat.div
                          (PrimFloat.of_uint63 (Uint63.of_Z k)) 10)).
Proof.
  intros stats. subst stats.
  split; [|split; [|split]].
  - unfold _get_issue_stats, issue_stats_body.
    destruct open_count as [o|], closed_count as [c|]; simpl;
      try (intros _; reflexivity).
    destruct (Z.ltb_spec 0 (o + c)) as [Hpos|Hle].
    + rewrite (truediv_nonzero c (o + c)) by lia. simpl. intros H. lia.
    + simpl. intros _. reflexivity.
  - intros o c -> ->.
    unfold _get_issue_stats, issue_stats_body.
    destruct (Z.ltb_spec 0 (o + c)) as [Hpos|Hle].
    + rewrite (truediv_nonzero c (o + c)) by lia. simpl.
      repeat split. intros _ _ _. eexists. split; reflexivity.
    + simpl. repeat split. intros H1 H2 H3. lia.
  - repeat split; vm_compute; reflexivity.
  - exact close_rate_range.
Qed.

#[warnings="-inexact-float"]
Lemma issue_close_rate_guarded_witness :
  close_rate (_get_issue_stats (Some 0) (Some 0)) = PyInt 0
  /\ close_rate (_get_issue_stats None (Some 4)) = PyInt 0
  /\ close_rate (_get_issue_stats (Some 1) (Some 2)) = PyFloat 66.7
  /\ _get_issue_stats (Some 1) (Some 2) = mkIssueStats 1 2 3 (PyFloat 66.7).
Proof.
  destruct (issue_close_rate_guarded (Some 0) (Some 0)) as [H0 _].
  destruct (issue_close_rate_guarded None (Some 4)) as [Hn _].
  destruct (issue_close_rate_guarded (Some 1) (Some 2)) as [_ [H _]].
  split; [apply H0; reflexivity|].
  split; [apply Hn; reflexivity|].
  destruct (H 1 2 eq_refl eq_refl) as [_ [_ Hq]].
  destruct Hq as [q [Hdiv Hrate]]; [lia | lia | discriminate |].
  split.
  - rewrite Hrate. injection Hdiv as <-. vm_compute. reflexivity.
  - vm_compute. reflexivity.
Defined.

End AnalyzerFacts.

(** ** The command *)

Module CliFacts.

Import Roaster Cli.

(** The constructor has a mode that touches no backend. *)
Lemma init_quick_mode_silent (w : World) (model : string) (api_key : option string) :
  __init__ w model api_key true = ([], Py.Return (mkAIRoaster model api_key false None)).
Proof. reflexivity. Qed.

(** C7, at the command lines [roast REPO --quick --model gpt-4] and
    [roast REPO --quick]: the command builds the roaster without that mode.
    With a hosted model and no key it ends on the [ValueError] of
    [_init_openai]; with the default model it needs the [ollama] package,
    builds its client and asks the local server for its models before the
    heuristic runs. *)
Theorem quick_flag_initialises_backend (w : World)
    (float_repr : float -> string) (now : Z) (spicy : bool) (data : RepoData) :
  generate_roast w float_repr now "gpt-4" None spicy true data
  = ([], Uncaught (Py.ValueError
           ("OpenAI API key required for GPT models." ++ Py.nl
            ++ "Usage: gte roast <repo> --model gpt-4 --api-key YOUR_KEY")))
  /\ generate_roast w float_repr now "mistral" None spicy true data
     = if ollama_installed w
       then ([OllamaClientCreated; OllamaModelsListed], RoastText (quick_roast data))
       else ([], Uncaught (Py.ImportError
               ("Ollama not installed. Install with: pip install ollama" ++ Py.nl
                ++ "Also install Ollama: https://ollama.com/download"))).
Proof.
  split.
  - reflexivity.
  - unfold generate_roast, __init__, _init_ollama. simpl.
    destruct (ollama_installed w); reflexivity.
Qed.

End CliFacts.

(** ** More on text *)

Module Strings.

Import Py Spec.

Lemma prefix_append (p s : string) :
  String.prefix p s = true <-> exists rest, s = p ++ rest.
Proof.
  revert s. induction p as [|a p IH]; intros s; simpl.
  - split; [intros _; now exists s | intros _; now destruct s].
  - destruct s as [|b s]; simpl.
    + split; [discriminate | intros [rest H]; discriminate].
    + destruct (ascii_dec a b) as [<-|Hab].
      * rewrite IH. split; intros [rest H]; exists rest.
        -- now rewrite H.
        -- now injection H.
      * split; [discriminate|]. intros [rest H]. injection H as H _.
        now elim Hab.
Qed.

Lemma contains_step (needle hay : string) :
  contains needle hay
  = if String.prefix needle hay then true
    else match hay with
         | EmptyString => false
         | String _ rest => contains needle rest
         end.
Proof. now destruct hay. Qed.

(** [needle in hay] holds exactly when [needle] occurs in [hay]. *)
Lemma contains_within (needle hay : string) :
  contains needle hay = true <-> within needle hay.
Proof.
  induction hay as [|c hay IH]; rewrite contains_step;
    destruct (String.prefix needle _) eqn:Ep;
    try (split; [intros _|reflexivity];
         apply prefix_append in Ep; destruct Ep as [rest ->];
         apply TextFacts.within_here).
  - split; [discriminate|]. intros [b [a H]]. exfalso.
    destruct b; [|discriminate]. simpl in H.
    assert (String.prefix needle EmptyString = true)
      by (apply prefix_append; now exists a).
    congruence.
  - rewrite IH. split.
    + apply (TextFacts.within_skip _ (String c EmptyString)).
    + intros [b [a H]]. destruct b as [|x b]; simpl in H.
      * assert (String.prefix needle (String c hay) = true)
          by (apply prefix_append; now exists a).
        congruence.
      * injection H as _ H. now exists b, a.
Qed.

Lemma within_trans (a b c : string) : within a b -> within b c -> within a c.
Proof.
  intros [b1 [a1 ->]] [b2 [a2 ->]].
  exists (b2 ++ b1), (a1 ++ a2). now rewrite !TextFacts.append_assoc.
Qed.

(** A text that holds [big] holds every part of [big]. *)
Lemma contains_part (small big hay : string) :
  contains small big = true -> contains big hay = true ->
  contains small hay = true.
Proof.
  rewrite !contains_within. apply within_trans.
Qed.

Lemma lower_char_idempotent (c : ascii) : lower_char (lower_char c) = lower_char c.
Proof. destruct c as [[] [] [] [] [] [] [] []]; reflexivity. Qed.

Lemma lower_upper_char (c : ascii) : lower_char (upper_char c) = lower_char c.
Proof. destruct c as [[] [] [] [] [] [] [] []]; reflexivity. Qed.

Lemma lower_idempotent (s : string) : lower (lower s) = lower s.
Proof.
  unfold lower. induction s as [|c s IH]; simpl; [reflexivity|].
  now rewrite lower_char_idempotent, IH.
Qed.

Lemma lower_upper (s : string) : lower (upper s) = lower s.
Proof.
  unfold lower, upper. induction s as [|c s IH]; simpl; [reflexivity|].
  now rewrite lower_upper_char, IH.
Qed.

(** *** [split] and [join] *)

Lemma split_not_nil (sep : ascii) (s : string) : split sep s <> [].
Proof.
  induction s as [|c s IH]; simpl; [discriminate|].
  destruct (Ascii.eqb c sep); [discriminate|].
  destruct (split sep s); [contradiction|discriminate].
Qed.

Lemma split_append (sep : ascii) (a b : string) :
  split sep (a ++ String sep b) = (split sep a ++ split sep b)%list.
Proof.
  induction a as [|c a IH]; simpl.
  - now rewrite Ascii.eqb_refl.
  - destruct (Ascii.eqb c sep); [now rewrite IH|].
    rewrite IH. pose proof (split_not_nil sep a) as Hn.
    destruct (split sep a); [contradiction|reflexivity].
Qed.

Lemma split_free (sep : ascii) (s : string) :
  free_of sep s = true -> split sep s = [s].
Proof.
  unfold free_of. induction s as [|c s IH]; simpl; [reflexivity|].
  intros H. apply andb_true_iff in H. destruct H as [Hc Hs].
  destruct (Ascii.eqb c sep); [discriminate|]. now rewrite IH.
Qed.

Lemma split_parts_free (sep : ascii) (s : string) :
  Forall (fun part => free_of sep part = true) (split sep s).
Proof.
  unfold free_of. induction s as [|c s IH]; simpl.
  - now constructor.
  - destruct (Ascii.eqb c sep) eqn:Ec; [now constructor|].
    pose proof (split_not_nil sep s) as Hn.
    destruct (split sep s) as [|part parts]; [contradiction|].
    inversion IH; subst. constructor; [simpl; now rewrite Ec|assumption].
Qed.

(** Joining the parts gives the text back. *)
Lemma join_split (sep : ascii) (s : string) :
  join (String sep EmptyString) (split sep s) = s.
Proof.
  induction s as [|c s IH]; simpl; [reflexivity|].
  destruct (Ascii.eqb_spec c sep) as [->|Hc].
  - pose proof (split_not_nil sep s) as Hn.
    destruct (split sep s) as [|part parts]; [contradiction|].
    simpl in *. now rewrite IH.
  - pose proof (split_not_nil sep s) as Hn.
    destruct (split sep s) as [|part parts]; [contradiction|].
    destruct parts; simpl in *; now rewrite <- IH.
Qed.

(** A line between two line feeds is one of the parts. *)
Lemma split_line_between (sep : ascii) (before line after : string) :
  free_of sep line = true ->
  In line (split sep (before ++ String sep (line ++ String sep after))).
Proof.
  intros H. rewrite !split_append, (split_free _ _ H).
  apply in_or_app. right. now left.
Qed.

(** *** [strip] *)

Lemma rstrip_last (f : ascii -> bool) (s t : string) (c : ascii) :
  rstrip_of f s = t ++ String c EmptyString -> f c = false.
Proof.
  revert t. induction s as [|a s IH]; intros t H; simpl in H.
  - destruct t; discriminate.
  - destruct (rstrip_of f s) as [|c' r'] eqn:Er.
    + destruct (f a) eqn:Ea; [destruct t; discriminate|].
      destruct t as [|x t]; simpl in H.
      * now injection H as <-.
      * injection H as _ H. destruct t; discriminate.
    + destruct t as [|x t]; simpl in H.
      * discriminate.
      * injection H as _ H. now apply (IH t).
Qed.

Lemma rstrip_append_kept (f : ascii -> bool) (s t : string) :
  t <> EmptyString -> rstrip_of f t = t -> rstrip_of f (s ++ t) = s ++ t.
Proof.
  intros Hn Ht. induction s as [|a s IH]; simpl; [exact Ht|].
  rewrite IH. destruct (s ++ t) eqn:E; [|reflexivity].
  destruct s; simpl in E; [contradiction|discriminate].
Qed.

Lemma rstrip_idempotent (f : ascii -> bool) (s : string) :
  rstrip_of f (rstrip_of f s) = rstrip_of f s.
Proof.
  induction s as [|a s IH]; simpl; [reflexivity|].
  destruct (rstrip_of f s) as [|c' r'] eqn:Er.
  - destruct (f a) eqn:Ea; simpl; [reflexivity|now rewrite Ea].
  - simpl. simpl in IH. rewrite IH. reflexivity.
Qed.

Lemma rstrip_head (f : ascii -> bool) (s : string) (c : ascii) (r : string) :
  rstrip_of f s = String c r -> exists s', s = String c s'.
Proof.
  destruct s as [|a s]; simpl; [discriminate|].
  destruct (rstrip_of f s); [destruct (f a)|]; intros H;
    try discriminate; injection H as -> _; now exists s.
Qed.

Lemma lstrip_head (f : ascii -> bool) (s : string) (c : ascii) (r : string) :
  lstrip_of f s = String c r -> f c = false.
Proof.
  induction s as [|a s IH]; simpl; [discriminate|].
  destruct (f a) eqn:Ea; [exact IH|]. intros H. now injection H as <- _.
Qed.

(** Stripping twice is stripping once. *)
Lemma strip_idempotent (s : string) : strip (strip s) = strip s.
Proof.
  unfold strip.
  destruct (rstrip_of is_space (lstrip_of is_space s)) as [|c r] eqn:E;
    [reflexivity|].
  destruct (rstrip_head _ _ _ _ E) as [s' Es'].
  pose proof (lstrip_head _ _ _ _ Es') as Hc.
  simpl lstrip_of. rewrite Hc. rewrite <- E. apply rstrip_idempotent.
Qed.

(** A text that neither starts nor ends with white space is left as it is. *)
Lemma strip_kept (c : ascii) (s t : string) :
  is_space c = false -> t <> EmptyString -> rstrip_of is_space t = t ->
  strip (String c (s ++ t)) = String c (s ++ t).
Proof.
  intros Hc Hn Ht. unfold strip. simpl lstrip_of. rewrite Hc.
  now apply (rstrip_append_kept is_space (String c s) t).
Qed.

End Strings.

(** ** The probes of the tree *)

Module ProbeFacts.

Import Py Analyzer Spec.

(** A list of indicators can be cut down to words that are among them and
    of which each indicator holds one. *)
Lemma has_indicator_cores (indicators cores : list string) (name : string) :
  forallb (fun i => existsb (fun k => contains k i) cores) indicators = true ->
  forallb (fun k => existsb (String.eqb k) indicators) cores = true ->
  has_indicator indicators name = has_indicator cores name.
Proof.
  intros Hcover Hamong. unfold has_indicator.
  rewrite forallb_forall in Hcover, Hamong.
  apply eq_true_iff_eq. rewrite !existsb_exists. split.
  - intros [i [Hi Hc]]. pose proof (Hcover i Hi) as Hk.
    apply existsb_exists in Hk. destruct Hk as [k [Hk Hki]].
    exists k. split; [exact Hk|]. now apply Strings.contains_part with i.
  - intros [k [Hk Hc]]. pose proof (Hamong k Hk) as Hi.
    apply existsb_exists in Hi. destruct Hi as [i [Hi E]].
    apply String.eqb_eq in E. subst i. now exists k.
Qed.

(** Of the nine indicators of tests, ["test"] and ["spec"] decide. *)
Lemma test_indicators_two (name : string) :
  has_indicator test_indicators name
  = contains "test" (lower name) || contains "spec" (lower name).
Proof.
  rewrite (has_indicator_cores test_indicators ["test"; "spec"]) by reflexivity.
  unfold has_indicator. simpl. now rewrite orb_false_r.
Qed.

Lemma doc_indicators_two (name : string) :
  has_indicator doc_indicators name
  = contains "doc" (lower name) || contains "wiki" (lower name).
Proof.
  rewrite (has_indicator_cores doc_indicators ["doc"; "wiki"]) by reflexivity.
  unfold has_indicator. simpl. now rewrite orb_false_r.
Qed.

Lemma bench_one (name : string) :
  contains "benchmark" (lower name) || contains "bench" (lower name)
  = contains "bench" (lower name).
Proof.
  destruct (contains "bench" (lower name)) eqn:Eb; [apply orb_true_r|].
  rewrite orb_false_r.
  destruct (contains "benchmark" (lower name)) eqn:Em; [|reflexivity].
  rewrite (Strings.contains_part "bench" "benchmark" _ eq_refl Em) in Eb.
  discriminate.
Qed.

Lemma search_for_tests_existsb (items : list entry) :
  search_for_tests items = existsb search_item items.
Proof. induction items as [|i items IH]; simpl; [reflexivity|now rewrite IH]. Qed.

Lemma search_item_dir (name : string) (sub : list entry) :
  search_item (EDir name (Some sub))
  = has_indicator test_indicators name || search_for_tests sub.
Proof.
  reflexivity.
Qed.

Lemma search_item_file (name : string) :
  search_item (EFile name) = has_indicator test_indicators name.
Proof. reflexivity. Qed.

Lemma search_item_dir_unread (name : string) :
  search_item (EDir name None) = has_indicator test_indicators name || false.
Proof. reflexivity. Qed.

Lemma hit_indicator (e : entry) :
  file_or_dir e = true -> hit e = has_indicator test_indicators (entry_name e).
Proof.
  intros H. unfold hit, named. now rewrite H, test_indicators_two.
Qed.

Lemma search_item_hit (e : entry) : hit e = true -> search_item e = true.
Proof.
  destruct e as [name|name [sub|]|name].
  - rewrite hit_indicator by reflexivity. now rewrite search_item_file.
  - rewrite hit_indicator by reflexivity. rewrite search_item_dir.
    simpl entry_name. now intros ->.
  - rewrite hit_indicator by reflexivity. rewrite search_item_dir_unread.
    simpl entry_name. now intros ->.
  - discriminate.
Qed.

Lemma visible_cons (i : entry) (items : list entry) (e : entry) :
  visible items e -> visible (i :: items) e.
Proof.
  induction 1 as [items e Hin|items name sub e Hin Hv IHv].
  - apply visible_here. now right.
  - apply visible_below with name sub; [now right|exact Hv].
Qed.

Lemma search_item_sound :
  forall i, search_item i = true ->
  hit i = true
  \/ exists name sub e,
       i = EDir name (Some sub) /\ visible sub e /\ hit e = true.
Proof.
  fix IH 1. intros i. destruct i as [name|name [sub|]|name].
  - intros H. left. now rewrite hit_indicator.
  - rewrite search_item_dir. intros H. apply orb_true_iff in H.
    destruct H as [H|H]; [left; now rewrite hit_indicator|].
    right. exists name, sub.
    assert (Hsub : exists e, visible sub e /\ hit e = true).
    { clear name. revert H. induction sub as [|i sub IHsub]; [discriminate|].
      change (search_for_tests (i :: sub))
        with (search_item i || search_for_tests sub).
      intros H. apply orb_true_iff in H. destruct H as [H|H].
      - destruct (IH i H) as [Hi|[name [sub' [e [-> [Hv He]]]]]].
        + exists i. split; [apply visible_here; now left|exact Hi].
        + exists e. split; [|exact He].
          apply visible_below with name sub'; [now left|exact Hv].
      - destruct (IHsub H) as [e [Hv He]]. exists e.
        split; [now apply visible_cons|exact He]. }
    destruct Hsub as [e [Hv He]]. now exists e.
  - rewrite search_item_dir_unread, orb_false_r. intros H. left.
    now rewrite hit_indicator.
  - discriminate.
Qed.

Lemma search_for_tests_sound (items : list entry) :
  search_for_tests items = true ->
  exists e, visible items e /\ hit e = true.
Proof.
  rewrite search_for_tests_existsb. intros H.
  apply existsb_exists in H. destruct H as [i [Hin Hi]].
  destruct (search_item_sound i Hi) as [H|[name [sub [e [-> [Hv He]]]]]].
  - exists i. split; [now apply visible_here|exact H].
  - exists e. split; [|exact He]. now apply visible_below with name sub.
Qed.

Lemma search_for_tests_complete (items : list entry) (e : entry) :
  visible items e -> hit e = true -> search_for_tests items = true.
Proof.
  intros Hv He. induction Hv as [items e Hin|items name sub e Hin Hv IHv];
    rewrite search_for_tests_existsb; apply existsb_exists.
  - exists e. split; [exact Hin|]. now apply search_item_hit.
  - exists (EDir name (Some sub)). split; [exact Hin|].
    rewrite search_item_dir, (IHv He). apply orb_true_r.
Qed.

(** X1: [_check_tests] answers [True] exactly when the root can be listed
    and an item that the walk can come to (in the root, or below directories
    whose listings can be read) is a file or a directory whose lowercased
    name holds ["test"] or ["spec"]; the seven other indicators change
    nothing. *)
Theorem check_tests_test_or_spec (root : option (list entry)) :
  _check_tests root = true
  <-> exists items e,
        root = Some items /\ visible items e
        /\ file_or_dir e = true
        /\ (named "test" e || named "spec" e) = true.
Proof.
  unfold _check_tests. split.
  - destruct root as [items|]; [|discriminate]. intros H.
    destruct (search_for_tests_sound items H) as [e [Hv He]].
    unfold hit in He. apply andb_true_iff in He. destruct He as [Hf Hn].
    now exists items, e.
  - intros [items [e [-> [Hv [Hf Hn]]]]].
    apply search_for_tests_complete with e; [exact Hv|].
    unfold hit. now rewrite Hf, Hn.
Qed.

(** X2: [_check_benchmarks] and [_check_docs] look at the root only, at
    items of every type: the first answers [True] exactly when the
    lowercased name of one holds ["bench"], the second when it holds ["doc"]
    or ["wiki"]. *)
Theorem check_benchmarks_docs_root (root : option (list entry)) :
  (_check_benchmarks root = true
   <-> exists items e, root = Some items /\ In e items /\ named "bench" e = true)
  /\ (_check_docs root = true
      <-> exists items e,
            root = Some items /\ In e items
            /\ (named "doc" e || named "wiki" e) = true).
Proof.
  unfold _check_benchmarks, _check_docs, named. split; split.
  - destruct root as [items|]; [|discriminate]. intros H.
    apply existsb_exists in H. destruct H as [e [Hin He]].
    rewrite bench_one in He. now exists items, e.
  - intros [items [e [-> [Hin He]]]]. apply existsb_exists.
    exists e. split; [exact Hin|]. now rewrite bench_one.
  - destruct root as [items|]; [|discriminate]. intros H.
    apply existsb_exists in H. destruct H as [e [Hin He]].
    rewrite doc_indicators_two in He. now exists items, e.
  - intros [items [e [-> [Hin He]]]]. apply existsb_exists.
    exists e. split; [exact Hin|]. now rewrite doc_indicators_two.
Qed.

End ProbeFacts.

(** ** More on the scoring heuristic *)

Module ScoringFacts.

Import Roaster Spec.

Lemma has_category_match (cat : string) (cs : list Claim) :
  Prompts.has_category cat cs
  = match of_category cat cs with [] => false | _ :: _ => true end.
Proof.
  destruct (of_category cat cs) eqn:E.
  - now apply RoasterFacts.has_category_of_category.
  - destruct (Prompts.has_category cat cs) eqn:H; [reflexivity|].
    apply RoasterFacts.has_category_of_category in H. congruence.
Qed.

Lemma check_performance_rule (d : RepoData) (a : Acc) :
  check_performance d a
  = if rule_performance d
    then mkAcc (roasts a ++ [performance_entry (first_claim "performance" d)])
               (score a - 20)
    else a.
Proof.
  unfold check_performance, rule_performance, first_claim.
  rewrite has_category_match.
  destruct (of_category "performance" (readme_claims d)); [reflexivity|].
  now destruct (has_benchmarks d).
Qed.

Lemma check_dependencies_rule (d : RepoData) (a : Acc) :
  check_dependencies d a
  = if rule_lightweight d
    then mkAcc (roasts a ++ [lightweight_entry (first_claim "lightweight" d)
                                               (dep_count (dependencies d))])
               (score a - 15)
    else a.
Proof.
  unfold check_dependencies, rule_lightweight, first_claim.
  rewrite has_category_match.
  destruct (of_category "lightweight" (readme_claims d)); [reflexivity|].
  now destruct (50 <? dep_count (dependencies d)).
Qed.

Lemma check_production_rule (d : RepoData) (a : Acc) :
  check_production d a
  = if rule_production d
    then mkAcc (roasts a ++ [production_entry (first_claim "production" d)])
               (score a - 25)
    else a.
Proof.
  unfold check_production, rule_production, first_claim.
  rewrite has_category_match.
  destruct (of_category "production" (readme_claims d)); [reflexivity|].
  now destruct (has_tests d).
Qed.

(** X3: [quick_roast] writes one entry for each rule that fires, in the
    order performance, lightweight, production, each quoting the first claim
    of its category however many there are; the score is 95 when no rule
    fires and otherwise 100 less 20, 15 and 25 for the rules that fire. *)
Theorem quick_roast_by_rules (d : RepoData) :
  final_roasts d
  = ((if rule_performance d
      then [performance_entry (first_claim "performance" d)] else [])
     ++ (if rule_lightweight d
         then [lightweight_entry (first_claim "lightweight" d)
                                 (dep_count (dependencies d))] else [])
     ++ (if rule_production d
         then [production_entry (first_claim "production" d)] else []))%list
  /\ final_score d
     = if rule_performance d || rule_lightweight d || rule_production d
       then 100 - (if rule_performance d then 20 else 0)
                - (if rule_lightweight d then 15 else 0)
                - (if rule_production d then 25 else 0)
       else 95.
Proof.
  unfold final_roasts, final_score, body_and_score, checks.
  rewrite check_performance_rule, check_dependencies_rule, check_production_rule.
  destruct (rule_performance d), (rule_lightweight d), (rule_production d);
    split; reflexivity.
Qed.

End ScoringFacts.

(** ** The backends *)

Module BackendFacts.

Import Roaster Cli Spec.

(** X4: whatever the machine and the options, the step that produces the
    roast touches one backend only, the hosted one when the name of the model
    starts with [gpt] and the local one otherwise; and with the quick flag no
    prompt is sent to either. *)
Theorem roast_step_one_backend (w : World) (float_repr : float -> string)
    (now : Z) (model : string) (api_key : option string) (spicy quick : bool)
    (data : RepoData) :
  let trace := fst (generate_roast w float_repr now model api_key spicy quick data) in
  (if Py.startswith model "gpt"
   then forallb is_openai_event trace
   else forallb is_ollama_event trace) = true
  /\ (quick = true -> existsb is_chat_event trace = false).
Proof.
  unfold generate_roast, __init__, _init_openai, _init_ollama, roast,
    _roast_ollama, _roast_openai.
  destruct quick, (Py.startswith model "gpt"); simpl;
    try destruct api_key as [[|c k]|]; simpl;
    try destruct (openai_installed w); simpl;
    try destruct (ollama_installed w); simpl;
    try destruct (openai_chat w model _); simpl;
    try destruct (ollama_chat w model _); simpl;
    split; try reflexivity; try discriminate; intros _; reflexivity.
Qed.

Lemma roast_step_one_backend_witness :
  fst (generate_roast (mkWorld true true (inl "mistral")
                               (fun _ _ => inl "ok") (fun _ _ => inl "ok"))
                      (fun _ => EmptyString) 0 "mistral" None false true
                      Scenario.blazing_repo)
  = [OllamaClientCreated; OllamaModelsListed].
Proof.
  pose proof (roast_step_one_backend
                (mkWorld true true (inl "mistral")
                         (fun _ _ => inl "ok") (fun _ _ => inl "ok"))
                (fun _ => EmptyString) 0 "mistral" None false true
                Scenario.blazing_repo) as [_ H].
  specialize (H eq_refl). reflexivity.
Defined.


(** X6: [roast] on a roaster built in quick mode raises the
    [RuntimeError] of the hosted branch, whatever the model, and touches no
    backend. *)
Theorem roast_on_quick_roaster (w : World) (float_repr : float -> string)
    (now : Z) (model : string) (api_key : option string) (spicy : bool)
    (data : RepoData) :
  (roaster <- __init__ w model api_key true ;;
   roast w float_repr now roaster data spicy)
  = ([], Py.Raise (Py.RuntimeError
            "OpenAI error: 'NoneType' object has no attribute 'chat'")).
Proof. reflexivity. Qed.

End BackendFacts.

(** ** The display of the roast *)

Module DisplayFacts.

Import Py Roaster Cli Spec.

Lemma all_chars_append (f : ascii -> bool) (a b : string) :
  all_chars f (a ++ b) = all_chars f a && all_chars f b.
Proof.
  induction a as [|c a IH]; simpl; [reflexivity|].
  now rewrite IH, andb_assoc.
Qed.

Lemma all_chars_weaken (f g : ascii -> bool) (s : string) :
  (forall c, f c = true -> g c = true) ->
  all_chars f s = true -> all_chars g s = true.
Proof.
  intros Hfg. induction s as [|c s IH]; simpl; [reflexivity|].
  intros H. apply andb_true_iff in H. destruct H as [Hc Hs].
  now rewrite (Hfg c Hc), IH.
Qed.

Lemma rstrip_free (f : ascii -> bool) (s : string) :
  all_chars (fun c => negb (f c)) s = true -> rstrip_of f s = s.
Proof.
  induction s as [|c s IH]; simpl; [reflexivity|].
  intros H. apply andb_true_iff in H. destruct H as [Hc Hs].
  rewrite (IH Hs). apply negb_true_iff in Hc. rewrite Hc.
  now destruct s.
Qed.

(** A text without white space is left as it is. *)
Lemma strip_free (s : string) :
  all_chars (fun c => negb (is_space c)) s = true -> strip s = s.
Proof.
  intros H. unfold strip.
  assert (Hl : lstrip_of is_space s = s).
  { destruct s as [|c s]; [reflexivity|]. simpl in *.
    apply andb_true_iff in H. destruct H as [Hc _].
    apply negb_true_iff in Hc. now rewrite Hc. }
  rewrite Hl. now apply rstrip_free.
Qed.

Lemma uint_digits (u : Decimal.uint) :
  all_chars is_digit (NilEmpty.string_of_uint u) = true.
Proof. induction u; simpl; try reflexivity; exact IHu. Qed.

(** [str(n)] is made of digits behind an optional minus sign. *)
Lemma str_of_int_chars (n : Z) : all_chars sign_or_digit (str_of_int n) = true.
Proof.
  assert (Hu : forall u, all_chars sign_or_digit (NilZero.string_of_uint u) = true).
  { intros u. apply all_chars_weaken with is_digit.
    - intros c Hc. unfold sign_or_digit. now rewrite Hc.
    - destruct u; try reflexivity; apply (uint_digits (_ u)). }
  unfold str_of_int, NilZero.string_of_int.
  destruct (Z.to_int n); [apply Hu|]. simpl. apply Hu.
Qed.

Lemma digits_value_step (c : ascii) (rest : string) (acc : Z) (seen : bool) :
  is_digit c = true ->
  digits_value (String c rest) acc seen
  = digits_value rest (10 * acc + Z.of_N (code c - 48)) true.
Proof. intros H. simpl. now rewrite H. Qed.

Ltac digit_value :=
  match goal with
  | |- context [Z.of_N ?x] =>
      let v := eval vm_compute in (Z.of_N x) in change (Z.of_N x) with v
  end.

Lemma digits_value_acc (u : Decimal.uint) :
  forall acc : positive,
    digits_value (NilEmpty.string_of_uint u) (Z.pos acc) true
    = Some (Z.pos (Pos.of_uint_acc u acc)).
Proof.
  induction u; intros acc; cbn [NilEmpty.string_of_uint Pos.of_uint_acc];
    try reflexivity;
    rewrite digits_value_step by reflexivity;
    rewrite <- IHu; f_equal; try reflexivity; digit_value; lia.
Qed.

Lemma digits_value_uint (u : Decimal.uint) (seen : bool) :
  digits_value (NilEmpty.string_of_uint u) 0 seen
  = match u with
    | Decimal.Nil => if seen then Some 0 else None
    | _ => Some (Z.of_N (Pos.of_uint u))
    end.
Proof.
  revert seen. induction u; intros seen; cbn [NilEmpty.string_of_uint];
    try reflexivity;
    rewrite digits_value_step by reflexivity; digit_value.
  - change (10 * 0 + 0) with 0. rewrite IHu. now destruct u.
  - exact (digits_value_acc u 1).
  - exact (digits_value_acc u 2).
  - exact (digits_value_acc u 3).
  - exact (digits_value_acc u 4).
  - exact (digits_value_acc u 5).
  - exact (digits_value_acc u 6).
  - exact (digits_value_acc u 7).
  - exact (digits_value_acc u 8).
  - exact (digits_value_acc u 9).
Qed.

Lemma sign_or_digit_no_space (c : ascii) :
  sign_or_digit c = true -> negb (is_space c) = true.
Proof. destruct c as [[] [] [] [] [] [] [] []]; (reflexivity || discriminate). Qed.

Lemma int_of_uint (u : Decimal.uint) :
  u <> Decimal.Nil ->
  int_of_str (NilEmpty.string_of_uint u) = Some (Z.of_N (Pos.of_uint u)).
Proof.
  intros Hu. unfold int_of_str.
  rewrite strip_free
    by (apply all_chars_weaken with is_digit;
        [intros c Hc; apply sign_or_digit_no_space; unfold sign_or_digit;
         now rewrite Hc | apply uint_digits]).
  destruct u; [contradiction|..]; cbn [NilEmpty.string_of_uint].
  - exact (digits_value_uint (Decimal.D0 u) false).
  - exact (digits_value_uint (Decimal.D1 u) false).
  - exact (digits_value_uint (Decimal.D2 u) false).
  - exact (digits_value_uint (Decimal.D3 u) false).
  - exact (digits_value_uint (Decimal.D4 u) false).
  - exact (digits_value_uint (Decimal.D5 u) false).
  - exact (digits_value_uint (Decimal.D6 u) false).
  - exact (digits_value_uint (Decimal.D7 u) false).
  - exact (digits_value_uint (Decimal.D8 u) false).
  - exact (digits_value_uint (Decimal.D9 u) false).
Qed.

Lemma string_of_uint_nonnil (u : Decimal.uint) :
  u <> Decimal.Nil -> NilZero.string_of_uint u = NilEmpty.string_of_uint u.
Proof. destruct u; [contradiction|reflexivity..]. Qed.

Lemma digits_value_pos (p : positive) :
  digits_value (NilEmpty.string_of_uint (Pos.to_uint p)) 0 false = Some (Z.pos p).
Proof.
  rewrite digits_value_uint. pose proof (Unsigned.to_uint_nonnil p) as Hn.
  pose proof (DecimalPos.Unsigned.of_to p) as Hp.
  destruct (Pos.to_uint p); [contradiction|..]; now rewrite Hp.
Qed.

(** [int(str(n))] is [n]. *)
Lemma int_of_str_of_int (n : Z) : int_of_str (str_of_int n) = Some n.
Proof.
  unfold int_of_str.
  rewrite strip_free
    by (apply all_chars_weaken with sign_or_digit;
        [apply sign_or_digit_no_space | apply str_of_int_chars]).
  destruct n as [|p|p]; [reflexivity| |];
    unfold str_of_int, Z.to_int, NilZero.string_of_int;
    rewrite string_of_uint_nonnil by apply Unsigned.to_uint_nonnil.
  - pose proof (digits_value_pos p) as H.
    pose proof (uint_digits (Pos.to_uint p)) as Hd.
    destruct (NilEmpty.string_of_uint (Pos.to_uint p)) as [|c s];
      [discriminate|].
    simpl in Hd. apply andb_true_iff in Hd. destruct Hd as [Hc _].
    destruct c as [[] [] [] [] [] [] [] []]; try discriminate; exact H.
  - cbn. now rewrite digits_value_pos.
Qed.

Lemma replace_absent (c : ascii) (old new s : string) :
  free_of c s = true -> replace_from (String c old) new s O = s.
Proof.
  unfold free_of. induction s as [|a s IH]; [reflexivity|].
  intros H. simpl in H. apply andb_true_iff in H. destruct H as [Ha Hs].
  apply negb_true_iff in Ha. apply Ascii.eqb_neq in Ha.
  cbn [replace_from String.prefix].
  destruct (ascii_dec c a) as [E|_]; [now elim Ha|].
  now rewrite (IH Hs).
Qed.

Lemma sign_or_digit_other (x c : ascii) :
  sign_or_digit x = false -> sign_or_digit c = true ->
  negb (Ascii.eqb c x) = true.
Proof.
  intros Hx Hc. apply negb_true_iff. apply Ascii.eqb_neq. congruence.
Qed.

Lemma str_of_int_free (x : ascii) (n : Z) :
  sign_or_digit x = false -> free_of x (str_of_int n) = true.
Proof.
  intros Hx. unfold free_of. apply all_chars_weaken with sign_or_digit.
  - intros c. now apply sign_or_digit_other.
  - apply str_of_int_chars.
Qed.


(** The line that carries the score keeps its text when stripped. *)
Lemma score_line_strip (n : Z) :
  strip ("TRUTH SCORE: " ++ str_of_int n ++ "/100")
  = "TRUTH SCORE: " ++ str_of_int n ++ "/100".
Proof.
  change ("TRUTH SCORE: " ++ str_of_int n ++ "/100")
    with (String "T" ("RUTH SCORE: " ++ str_of_int n ++ "/100")).
  change "/100" with ("/10" ++ "0").
  rewrite <- (TextFacts.append_assoc (str_of_int n) "/10" "0").
  rewrite <- (TextFacts.append_assoc "RUTH SCORE: " _ "0").
  now apply Strings.strip_kept.
Qed.

(** The score is read back from its line. *)
Lemma score_of_score_line (n : Z) :
  score_of_line ("TRUTH SCORE: " ++ str_of_int n ++ "/100") = Some n.
Proof.
  unfold score_of_line, replace.
  assert (Hrest : free_of "T" (str_of_int n ++ "/100") = true).
  { unfold free_of. rewrite all_chars_append.
    fold (free_of "T" (str_of_int n)). now rewrite str_of_int_free. }
  assert (Hr : replace_from "TRUTH SCORE:" EmptyString
                 ("TRUTH SCORE: " ++ str_of_int n ++ "/100") O
               = String " " (str_of_int n ++ "/100")).
  { cbn [append replace_from String.prefix Nat.pred String.length].
    repeat match goal with
           | |- context [ascii_dec ?a ?b] =>
               destruct (ascii_dec a b); [|congruence]
           end.
    destruct (ascii_dec "T" " "); [discriminate|].
    now rewrite (replace_absent "T" "RUTH SCORE:" EmptyString _ Hrest). }
  rewrite Hr.
  assert (Hs : strip (String " " (str_of_int n ++ "/100"))
               = str_of_int n ++ "/100").
  { change (strip (String " " (str_of_int n ++ "/100")))
      with (strip (str_of_int n ++ "/100")).
    apply strip_free. rewrite all_chars_append.
    rewrite (all_chars_weaken _ _ _ sign_or_digit_no_space (str_of_int_chars n)).
    reflexivity. }
  rewrite Hs.
  change (str_of_int n ++ "/100") with (str_of_int n ++ String "/" "100").
  rewrite Strings.split_append.
  rewrite (Strings.split_free "/" (str_of_int n))
    by (now apply str_of_int_free).
  apply int_of_str_of_int.
Qed.

Lemma display_score_line (n : Z) :
  display_line ("TRUTH SCORE: " ++ str_of_int n ++ "/100")
  = Some (styled (score_colour n ++ " bold")
                 ("TRUTH SCORE: " ++ str_of_int n ++ "/100")).
Proof.
  unfold display_line. rewrite score_line_strip, score_of_score_line.
  reflexivity.
Qed.

Lemma score_line_free (n : Z) :
  free_of "010" ("TRUTH SCORE: " ++ str_of_int n ++ "/100") = true.
Proof.
  unfold free_of. rewrite !all_chars_append.
  fold (free_of "010" (str_of_int n)). now rewrite str_of_int_free.
Qed.

Lemma quick_roast_has_score_line (d : RepoData) :
  In ("TRUTH SCORE: " ++ str_of_int (final_score d) ++ "/100")
     (split "010" (quick_roast d)).
Proof.
  assert (H : quick_roast d
              = (header d ++ fst (body_and_score (checks d)) ++ rule_line)
                ++ String "010"
                     (("TRUTH SCORE: " ++ str_of_int (final_score d) ++ "/100")
                      ++ String "010"
                           ("VERDICT: " ++ final_verdict d ++ nl
                            ++ rule_line ++ nl))).
  { unfold quick_roast, footer, nl.
    rewrite !TextFacts.append_assoc. reflexivity. }
  rewrite H. apply Strings.split_line_between. apply score_line_free.
Qed.

Ltac find_in := repeat (try (left; reflexivity); right).

(** X7: whatever the record, among the lines that [display_roast] prints for
    the report of [quick_roast] there is the line of the score, in bold and
    in the colour of the score: green from 70, yellow from 50, red below.
    The [int] of the code reads the score back from the line, so the
    [except] branch (bold without colour) is not taken. *)
Theorem display_quick_roast_score (d : RepoData) :
  In (Some
        (if 70 <=? final_score d
         then "[green bold]TRUTH SCORE: " ++ str_of_int (final_score d)
              ++ "/100[/green bold]"
         else if 50 <=? final_score d
         then "[yellow bold]TRUTH SCORE: " ++ str_of_int (final_score d)
              ++ "/100[/yellow bold]"
         else "[red bold]TRUTH SCORE: " ++ str_of_int (final_score d)
              ++ "/100[/red bold]"))
     (display_roast (quick_roast d))
  /\ In (Some "[yellow bold]TRUTH SCORE: 65/100[/yellow bold]")
        (display_roast (quick_roast Scenario.blazing_repo))
  /\ In (Some "[green bold]TRUTH SCORE: 95/100[/green bold]")
        (display_roast (quick_roast Scenario.honest_repo))
  /\ In (Some "[red bold]TRUTH SCORE: 40/100[/red bold]")
        (display_roast (quick_roast Scenario.untested_blazing_repo)).
Proof.
  split; [|repeat split; vm_compute; find_in].
  assert (E : Some
        (if 70 <=? final_score d
         then "[green bold]TRUTH SCORE: " ++ str_of_int (final_score d)
              ++ "/100[/green bold]"
         else if 50 <=? final_score d
         then "[yellow bold]TRUTH SCORE: " ++ str_of_int (final_score d)
              ++ "/100[/yellow bold]"
         else "[red bold]TRUTH SCORE: " ++ str_of_int (final_score d)
              ++ "/100[/red bold]")
        = display_line ("TRUTH SCORE: " ++ str_of_int (final_score d) ++ "/100")).
  { rewrite display_score_line. unfold styled, score_colour.
    destruct (70 <=? final_score d); [|destruct (50 <=? final_score d)];
      TextFacts.flatten; reflexivity. }
  rewrite E. unfold display_roast. apply in_map.
  apply quick_roast_has_score_line.
Qed.


(** A line between a character that is not white space and a closing
    quote keeps its text when stripped. *)
Lemma strip_quoted (c : ascii) (p claim : string) :
  is_space c = false ->
  strip (String c (p ++ String "034" (claim ++ String "034" EmptyString)))
  = String c (p ++ String "034" (claim ++ String "034" EmptyString)).
Proof.
  intros Hc.
  assert (E : p ++ String "034" (claim ++ String "034" EmptyString)
              = (p ++ String "034" claim) ++ String "034" EmptyString)
    by (now rewrite TextFacts.append_assoc).
  rewrite E. apply Strings.strip_kept; [exact Hc|discriminate|reflexivity].
Qed.

(** A line indented by three spaces loses them, and nothing else when it
    does not end with white space. *)
Lemma strip_indented (c : ascii) (a b t : string) :
  is_space c = false -> t <> EmptyString -> rstrip_of is_space t = t ->
  strip ("   " ++ String c (a ++ b ++ t)) = String c (a ++ b ++ t).
Proof.
  intros Hc Ht Hr.
  change (strip ("   " ++ String c (a ++ b ++ t)))
    with (rstrip_of is_space (lstrip_of is_space (String c (a ++ b ++ t)))).
  cbn [lstrip_of]. rewrite Hc.
  rewrite <- TextFacts.append_assoc.
  exact (Strings.rstrip_append_kept is_space (String c (a ++ b)) t Ht Hr).
Qed.

(** X8: how [display_roast] prints the lines of an entry of [quick_roast]
    and its rules.  The line of the claim opens with the glyph, not with
    [CLAIM:], so it is printed without the yellow style; the lines of the
    evidence and of the roast are stripped of their indentation and printed
    in cyan and in magenta italic; the rule of the report is not the one
    that the display looks for, so it is printed as it is and not dimmed. *)
Theorem display_quick_roast_entry (claim : string) (n : Z) :
  display_line
    ("âŒ CLAIM: " ++ String "034" (claim ++ String "034" EmptyString))
  = Some
      ("âŒ CLAIM: " ++ String "034" (claim ++ String "034" EmptyString))
  /\ display_line "   EVIDENCE: No benchmarks found"
     = Some "[cyan]EVIDENCE: No benchmarks found[/cyan]"
  /\ display_line ("   EVIDENCE: " ++ str_of_int n ++ " dependencies")
     = Some ("[cyan]EVIDENCE: " ++ str_of_int n ++ " dependencies[/cyan]")
  /\ display_line "   EVIDENCE: No tests detected"
     = Some "[cyan]EVIDENCE: No tests detected[/cyan]"
  /\ display_line
       ("   ROAST: '" ++ claim
        ++ "' is a state of mind, not a dependency count")
     = Some ("[magenta italic]ROAST: '" ++ claim
             ++ "' is a state of mind, not a dependency count[/magenta italic]")
  /\ display_line "â”â”â”â”â”â”â”â”â”â”â”â”â”â”â”â”â”â”â”â”â”â”â”â”â”â”â”â”â”â”â”â”â”"
     = Some "â”â”â”â”â”â”â”â”â”â”â”â”â”â”â”â”â”â”â”â”â”â”â”â”â”â”â”â”â”â”â”â”â”"
  /\ display_roast (quick_roast Scenario.blazing_repo)
     = [ None;
         Some ("ğŸ“Š Repository: awesome/framework");
         Some ("â­ Stars: 50,000");
         None;
         Some ("âŒ CLAIM: " ++ String "034" ("blazingly fast" ++ String "034"
           EmptyString));
         Some ("[cyan]EVIDENCE: No benchmarks found[/cyan]");
         Some ("[magenta italic]ROAST: " ++ String "034" ("Trust me bro" ++
           String "034" (" - The Benchmark[/magenta italic]")));
         None;
         Some ("âŒ CLAIM: " ++ String "034" ("zero dependencies" ++ String
           "034" EmptyString));
         Some ("[cyan]EVIDENCE: 120 dependencies[/cyan]");
         Some ("[magenta italic]ROAST: 'zero dependencies' is a state of mind, not a dependency count[/magenta italic]");
         None;
         Some ("â”â”â”â”â”â”â”â”â”â”â”â”â”â”â”â”â”â”â”â”â”â”â”â”â”â”â”â”â”â”â”â”â”");
         Some ("[yellow bold]TRUTH SCORE: 65/100[/yellow bold]");
         Some ("[bold]VERDICT: Marketing Spin[/bold]");
         Some ("â”â”â”â”â”â”â”â”â”â”â”â”â”â”â”â”â”â”â”â”â”â”â”â”â”â”â”â”â”â”â”â”â”");
         None ].
Proof.
  split; [|split; [reflexivity|split; [|split; [reflexivity|split; [|split]]]]].
  - unfold display_line.
    lazymatch goal with
    | |- context [strip (?l ++ ?x)] =>
        lazymatch l with
        | String ?c ?p =>
            change (l ++ x) with (String c (p ++ x));
            rewrite (strip_quoted c p claim eq_refl)
        end
    end.
    reflexivity.
  - unfold display_line.
    change ("   EVIDENCE: " ++ str_of_int n ++ " dependencies")
      with ("   " ++ String "E" ("VIDENCE: " ++ str_of_int n ++ " dependencies")).
    rewrite (strip_indented "E" "VIDENCE: " (str_of_int n) " dependencies")
      by (reflexivity || discriminate).
    cbn. unfold styled. TextFacts.flatten. reflexivity.
  - unfold display_line.
    change ("   ROAST: '" ++ claim
            ++ "' is a state of mind, not a dependency count")
      with ("   " ++ String "R"
              ("OAST: '" ++ claim
               ++ "' is a state of mind, not a dependency count")).
    rewrite (strip_indented "R" "OAST: '" claim
               "' is a state of mind, not a dependency count")
      by (reflexivity || discriminate).
    cbn. unfold styled. TextFacts.flatten. reflexivity.
  - reflexivity.
  - vm_compute. reflexivity.
Qed.

End DisplayFacts.

(** ** More on repository references *)

Module ReferenceFacts.

Import Py Analyzer Spec.

(** The texts that a match gives to the parenthesised items are taken by
    those items. *)
Lemma groups_taken (p : Re.pattern) (ts : list string) :
  Forall2 atom_takes p ts ->
  Forall (fun t => exists a, In a p /\ Re.a_group a = true /\ atom_takes a t)
         (Re.groups p ts).
Proof.
  induction 1 as [|a t p ts Ha _ IH]; simpl; [constructor|].
  assert (IH' : Forall (fun t0 => exists a0, In a0 (a :: p)
                                  /\ Re.a_group a0 = true /\ atom_takes a0 t0)
                       (Re.groups p ts)).
  { eapply Forall_impl; [|exact IH].
    intros t0 [a0 [Hin H0]]. exists a0. split; [now right|exact H0]. }
  destruct (Re.a_group a) eqn:Eg; [|exact IH'].
  constructor; [|exact IH']. exists a. split; [now left|]. now split.
Qed.

(** Both parenthesised items of the pattern of [_parse_repo_url] ask for
    one character or more other than the slash. *)
Lemma github_re_groups :
  forall a, In a github_re -> Re.a_group a = true ->
            Re.a_cls a = Re.Except "/" /\ Re.a_quant a = Re.Plus.
Proof.
  assert (H : forallb (fun a => negb (Re.a_group a)
                                || match Re.a_cls a, Re.a_quant a with
                                   | Re.Except "/", Re.Plus => true
                                   | _, _ => false
                                   end) github_re = true)
    by (vm_compute; reflexivity).
  intros a Hin Hg. rewrite forallb_forall in H. specialize (H a Hin).
  rewrite Hg in H. simpl in H.
  destruct (Re.a_cls a) as [| | | |c]; try discriminate.
  destruct (Re.a_quant a); try discriminate;
    destruct c as [[] [] [] [] [] [] [] []]; try discriminate.
  now split.
Qed.

Lemma group_text (a : Re.atom) (t : string) :
  Re.a_cls a = Re.Except "/" -> Re.a_quant a = Re.Plus -> atom_takes a t ->
  no_slash t = true /\ t <> EmptyString.
Proof.
  unfold atom_takes. intros -> ->. intros [Hne Hall]. now split.
Qed.

(** A text split in two parts is the two parts around the separator. *)
Lemma split_last_part (sep : ascii) (s first last : string) :
  split sep s = [first; last] -> s = first ++ String sep last.
Proof.
  intros H. rewrite <- (Strings.join_split sep s), H. reflexivity.
Qed.

(** X9: whatever the reference, the two parts that [_parse_repo_url]
    returns hold no slash and the name of the repository is not empty. *)
Theorem parse_repo_url_parts (url owner name : string) :
  _parse_repo_url url = Return (owner, name) ->
  no_slash owner = true /\ no_slash name = true /\ name <> EmptyString.
Proof.
  unfold _parse_repo_url.
  set (ref := rstrip_of is_slash (strip url)).
  destruct (contains "github.com" ref).
  - destruct (Re.search github_re ref) as [ts|] eqn:Es; [|discriminate].
    apply ReFacts.search_sound in Es. destruct Es as [Hts _].
    pose proof (groups_taken _ _ Hts) as Hg.
    destruct (Re.groups github_re ts) as [|o [|n [|x rest]]]; try discriminate.
    intros H. injection H as <- <-.
    inversion Hg as [|? ? [a1 [Hin1 [Hg1 Ht1]]] Hg']; subst.
    inversion Hg' as [|? ? [a2 [Hin2 [Hg2 Ht2]]] _]; subst.
    destruct (github_re_groups a1 Hin1 Hg1) as [Hc1 Hq1].
    destruct (github_re_groups a2 Hin2 Hg2) as [Hc2 Hq2].
    destruct (group_text a1 o Hc1 Hq1 Ht1) as [Ho _].
    destruct (group_text a2 n Hc2 Hq2 Ht2) as [Hn Hne].
    now repeat split.
  - destruct (split "/" ref) as [|o [|n [|x rest]]] eqn:Es; try discriminate.
    intros H. injection H as <- <-.
    pose proof (Strings.split_parts_free "/" ref) as Hf. rewrite Es in Hf.
    inversion Hf as [|? ? Ho Hf']; subst. inversion Hf' as [|? ? Hn _]; subst.
    repeat split; [exact Ho|exact Hn|].
    intros ->. apply split_last_part in Es.
    assert (Hr : rstrip_of is_slash (strip url) = o ++ String "/" EmptyString)
      by exact Es.
    apply Strings.rstrip_last in Hr. discriminate.
Qed.

Lemma parse_repo_url_parts_witness :
  _parse_repo_url "  https://github.com/facebook/react/  "
  = Return ("facebook", "react")
  /\ no_slash "facebook" = true /\ no_slash "react" = true
  /\ "react" <> EmptyString.
Proof.
  split; [vm_compute; reflexivity|].
  exact (parse_repo_url_parts "  https://github.com/facebook/react/  "
           "facebook" "react" eq_refl).
Defined.

(** X10: a reference that does not hold [github.com] parses exactly when,
    once stripped of white space and of slashes at its end, it is two texts
    without slash around one slash; the two parts then give the reference
    back, which is the name that [analyze] asks the platform for.  The first
    part may be empty: [/react] parses to an owner without name. *)
Theorem parse_owner_repo_round_trip (url owner name : string) :
  contains "github.com" (rstrip_of is_slash (strip url)) = false ->
  (_parse_repo_url url = Return (owner, name)
   <-> rstrip_of is_slash (strip url) = owner ++ "/" ++ name
       /\ no_slash owner = true /\ no_slash name = true).
Proof.
  intros Hc. unfold _parse_repo_url. rewrite Hc.
  set (ref := rstrip_of is_slash (strip url)). split.
  - destruct (split "/" ref) as [|o [|n [|x rest]]] eqn:Es; try discriminate.
    intros H. injection H as <- <-.
    pose proof (Strings.split_parts_free "/" ref) as Hf. rewrite Es in Hf.
    inversion Hf as [|? ? Ho Hf']; subst. inversion Hf' as [|? ? Hn _]; subst.
    split; [now apply split_last_part|]. now split.
  - intros [-> [Ho Hn]].
    now rewrite (AnalyzerFacts.split_owner_repo owner name Ho Hn).
Qed.

Lemma parse_owner_repo_round_trip_witness :
  _parse_repo_url " /react/ " = Return (EmptyString, "react")
  /\ _parse_repo_url "facebook/react" = Return ("facebook", "react")
  /\ _parse_repo_url "a/b/c" = Raise (invalid_format "a/b/c").
Proof.
  split; [|split; vm_compute; reflexivity].
  apply (parse_owner_repo_round_trip " /react/ " EmptyString "react");
    [reflexivity|]. repeat split.
Defined.

End ReferenceFacts.

(** ** More on claim extraction *)

Module ExtractionFacts.

Import Py Analyzer Spec.

Lemma lower_char_not_upper (c : ascii) : negb (is_upper (lower_char c)) = true.
Proof. destruct c as [[] [] [] [] [] [] [] []]; reflexivity. Qed.

Lemma lower_not_upper (s : string) :
  all_chars (fun c => negb (is_upper c)) (lower s) = true.
Proof.
  induction s as [|c s IH]; [reflexivity|].
  unfold lower in *. simpl. now rewrite lower_char_not_upper, IH.
Qed.

Lemma all_chars_within (f : ascii -> bool) (part whole : string) :
  within part whole -> all_chars f whole = true -> all_chars f part = true.
Proof.
  intros [b [a ->]] H. rewrite !DisplayFacts.all_chars_append in H.
  apply andb_true_iff in H. destruct H as [_ H].
  apply andb_true_iff in H. now destruct H.
Qed.

Lemma category_in_table (cat pat : string) :
  In (cat, pat) pattern_table ->
  In cat ["performance"; "simplicity"; "production"; "lightweight"; "modern";
          "comprehensive"].
Proof.
  intros H. apply (in_map fst) in H. simpl in H.
  assert (Hs : forallb (fun c => existsb (String.eqb c)
                          ["performance"; "simplicity"; "production";
                           "lightweight"; "modern"; "comprehensive"])
                       (map fst pattern_table) = true)
    by (vm_compute; reflexivity).
  rewrite forallb_forall in Hs. specialize (Hs cat H).
  apply existsb_exists in Hs. destruct Hs as [x [Hx E]].
  apply String.eqb_eq in E. now subst.
Qed.



End ExtractionFacts.

(** ** More on the dependencies *)

Module ManifestFacts.

Import Py Analyzer Spec.

Section Probe.

Variable json_loads : string -> option json.
Variable get_contents : string -> option contents.

(** Reading a manifest keeps the kind. *)
Lemma read_manifest_kind (filename : string) (content : contents)
    (deps deps' : Dependencies) :
  read_manifest json_loads filename content deps = Some deps' ->
  dep_type deps' = dep_type deps.
Proof.
  unfold read_manifest. intros H.
  destruct (String.eqb filename "package.json").
  - destruct (decoded_content_of content); [|discriminate].
    destruct (json_loads s); [|discriminate].
    destruct (get_mapping j "dependencies"); [|discriminate].
    destruct (get_mapping j "devDependencies"); [|discriminate].
    now injection H as <-.
  - destruct (String.eqb filename "requirements.txt").
    + destruct (decoded_content_of content); [|discriminate].
      destruct (decode_utf8 s); [|discriminate].
      now injection H as <-.
    + now injection H as <-.
Qed.

(** Reading a manifest leaves a count that is the number of names. *)
Lemma read_manifest_counts (filename : string) (content : contents)
    (deps deps' : Dependencies) :
  read_manifest json_loads filename content deps = Some deps' ->
  dep_count deps = Z.of_nat (List.length (dep_list deps)) ->
  dep_count deps' = Z.of_nat (List.length (dep_list deps')).
Proof.
  unfold read_manifest. intros H Hc.
  destruct (String.eqb filename "package.json").
  - destruct (decoded_content_of content); [|discriminate].
    destruct (json_loads s); [|discriminate].
    destruct (get_mapping j "dependencies"); [|discriminate].
    destruct (get_mapping j "devDependencies"); [|discriminate].
    injection H as <-. simpl. now rewrite length_map.
  - destruct (String.eqb filename "requirements.txt").
    + destruct (decoded_content_of content); [|discriminate].
      destruct (decode_utf8 s); [|discriminate].
      now injection H as <-.
    + now injection H as <-.
Qed.

(** A manifest that is neither [package.json] nor [requirements.txt] is
    not read. *)
Lemma read_manifest_other (filename : string) (content : contents)
    (deps : Dependencies) :
  String.eqb filename "package.json" = false ->
  String.eqb filename "requirements.txt" = false ->
  read_manifest json_loads filename content deps = Some deps.
Proof. intros H1 H2. unfold read_manifest. now rewrite H1, H2. Qed.

Lemma probe_counts (files : list (string * string)) :
  forall deps,
    dep_count deps = Z.of_nat (List.length (dep_list deps)) ->
    dep_count (probe json_loads get_contents files deps)
    = Z.of_nat (List.length (dep_list (probe json_loads get_contents files deps))).
Proof.
  induction files as [|[filename type] rest IH]; intros deps Hc; [exact Hc|].
  simpl. destruct (get_contents filename) as [content|]; [|now apply IH].
  destruct (read_manifest _ _ _ _) as [deps'|] eqn:Er.
  - now apply read_manifest_counts in Er.
  - now apply IH.
Qed.

(** Once a kind is set, the probe leaves one. *)
Lemma probe_keeps_kind (files : list (string * string)) :
  forall deps,
    dep_type deps <> None ->
    dep_type (probe json_loads get_contents files deps) <> None.
Proof.
  induction files as [|[filename type] rest IH]; intros deps Ht; [exact Ht|].
  simpl. destruct (get_contents filename) as [content|]; [|now apply IH].
  destruct (read_manifest _ _ _ _) as [deps'|] eqn:Er.
  - apply read_manifest_kind in Er. rewrite Er. discriminate.
  - apply IH. discriminate.
Qed.

(** The kind stays unset exactly when no manifest of the list is found. *)
Lemma probe_kind_unset (files : list (string * string)) :
  forall deps,
    dep_type deps = None ->
    (dep_type (probe json_loads get_contents files deps) = None
     <-> forall f t, In (f, t) files -> get_contents f = None).
Proof.
  induction files as [|[filename type] rest IH]; intros deps Ht.
  - simpl. split; [intros _ f t []|intros _; exact Ht].
  - simpl. destruct (get_contents filename) as [content|] eqn:Eg.
    + split.
      * intros H. exfalso.
        destruct (read_manifest _ _ _ _) as [deps'|] eqn:Er.
        -- apply read_manifest_kind in Er. rewrite Er in H. discriminate.
        -- revert H. apply probe_keeps_kind. discriminate.
      * intros H. specialize (H filename type (or_introl eq_refl)). congruence.
    + rewrite (IH deps Ht). split.
      * intros H f t [E|Hin]; [injection E as <- <-; exact Eg|now apply (H f t)].
      * intros H f t Hin. apply (H f t). now right.
Qed.

(** When the probe finds nothing, it leaves the record as it was. *)
Lemma probe_nothing_found (files : list (string * string)) :
  forall deps,
    (forall f t, In (f, t) files -> get_contents f = None) ->
    probe json_loads get_contents files deps = deps.
Proof.
  induction files as [|[filename type] rest IH]; intros deps H; [reflexivity|].
  simpl. rewrite (H filename type (or_introl eq_refl)).
  apply IH. intros f t Hin. apply (H f t). now right.
Qed.

(** Without the two manifests that are read, no name is counted. *)
Lemma probe_unread (files : list (string * string)) :
  forall deps,
    (forall f t, In (f, t) files ->
                 String.eqb f "package.json" || String.eqb f "requirements.txt"
                 = true ->
                 get_contents f = None) ->
    dep_count (probe json_loads get_contents files deps) = dep_count deps
    /\ dep_list (probe json_loads get_contents files deps) = dep_list deps.
Proof.
  induction files as [|[filename type] rest IH]; intros deps H; [now split|].
  assert (Hrest : forall f t, In (f, t) rest ->
                    String.eqb f "package.json" || String.eqb f "requirements.txt"
                    = true -> get_contents f = None)
    by (intros f t Hin; apply (H f t); now right).
  simpl. destruct (get_contents filename) as [content|] eqn:Eg;
    [|now apply IH].
  destruct (String.eqb filename "package.json"
            || String.eqb filename "requirements.txt") eqn:Ef.
  - specialize (H filename type (or_introl eq_refl) Ef). congruence.
  - apply orb_false_iff in Ef. destruct Ef as [E1 E2].
    now rewrite (read_manifest_other filename content _ E1 E2).
Qed.

End Probe.

(** X13: the record of [_get_dependencies], whatever the repository and
    whatever [json.loads] does: the count is the number of names listed; the
    kind is unset exactly when none of the seven manifests can be fetched,
    and then the record is the initial one; and when neither [package.json]
    nor [requirements.txt] can be fetched the count is 0 and no name is
    listed, whatever the other manifests hold.  A package named under
    [dependencies] and under [devDependencies] is counted once. *)
Theorem get_dependencies_record (json_loads : string -> option json)
    (get_contents : string -> option contents) :
  let deps := _get_dependencies json_loads get_contents in
  dep_count deps = Z.of_nat (List.length (dep_list deps))
  /\ (dep_type deps = None
      <-> forall f t, In (f, t) dep_files -> get_contents f = None)
  /\ (dep_type deps = None -> deps = mkDependencies 0 None [])
  /\ (get_contents "package.json" = None ->
      get_contents "requirements.txt" = None ->
      dep_count deps = 0 /\ dep_list deps = [])
  /\ _get_dependencies
       (fun _ => Some (JObject
          [ ("name", JString "app");
            ("dependencies",
             JObject [("react", JString "^18.0.0"); ("lodash", JString "*")]);
            ("devDependencies",
             JObject [("jest", JString "^29"); ("lodash", JString "^4")]) ]))
       (fun path => if String.eqb path "package.json"
                    then Some (ContentFile "{...}") else None)
     = mkDependencies 3 (Some "npm") ["react"; "lodash"; "jest"]
  /\ _get_dependencies (fun _ => None)
       (fun path => if String.eqb path "requirements.txt"
                    then Some (ContentFile
                           ("# pinned" ++ nl ++ "click==8.1" ++ nl ++ nl
                            ++ "  rich  " ++ nl ++ "  # indented comment" ++ nl))
                    else None)
     = mkDependencies 3 (Some "pip") ["click==8.1"; "rich"; "# indented comment"]
  /\ _get_dependencies (fun _ => None)
       (fun path => if String.eqb path "go.mod"
                    then Some (ContentFile "require github.com/a/b v1.0.0")
                    else None)
     = mkDependencies 0 (Some "go") [].
Proof.
  intros deps. subst deps. unfold _get_dependencies.
  split; [|split; [|split; [|split; [|repeat split; vm_compute; reflexivity]]]].
  - now apply probe_counts.
  - exact (probe_kind_unset json_loads get_contents dep_files
             (mkDependencies 0 None []) eq_refl).
  - intros H.
    apply probe_nothing_found.
    exact (proj1 (probe_kind_unset json_loads get_contents dep_files
                    (mkDependencies 0 None []) eq_refl) H).
  - intros H1 H2.
    apply (probe_unread json_loads get_contents dep_files (mkDependencies 0 None [])).
    intros f t _ Ef. apply orb_true_iff in Ef.
    destruct Ef as [E|E]; apply String.eqb_eq in E; now subst.
Qed.

End ManifestFacts.

(** ** The record of [analyze] *)

Module AnalyzeFacts.

Import Py Analyzer Roaster Spec.

(** Without claims no check changes the accumulator. *)
Lemma checks_without_claims (d : RepoData) :
  readme_claims d = [] -> checks d = mkAcc [] 100.
Proof.
  intros H. unfold checks, check_production, check_dependencies,
    check_performance. now rewrite H.
Qed.

(** The record that [analyze] returns, field by field. *)
Lemma analyze_fields (json_loads : string -> option json)
    (get_repo : string -> Repo + string) (owner name : string)
    (data : RepoData) :
  analyze json_loads get_repo owner name = Analysed data ->
  exists repo,
    get_repo (owner ++ "/" ++ name) = inl repo
    /\ readme_claims data
       = match _get_readme (readme_bytes repo) with
         | Some (String c text) => _extract_claims (String c text)
         | _ => []
         end
    /\ dependencies data = _get_dependencies json_loads (get_contents repo)
    /\ has_tests data = _check_tests (root repo)
    /\ test_coverage data = _estimate_test_coverage (_check_tests (root repo))
    /\ open_issues data = open_issues_count repo
    /\ issue_stats data
       = _get_issue_stats (Some (open_issues_count repo))
                          (closed_issues_total_count repo).
Proof.
  unfold analyze. destruct (get_repo _) as [repo|e]; [|discriminate].
  destruct (get_languages repo); [|discriminate].
  intros H. injection H as <-. exists repo. now repeat split.
Qed.

(** X14: a repository whose README cannot be fetched, is not UTF-8 or is
    empty gets no claim, so that its quick report is the all-clear one, with
    the score 95 and the verdict "Honest AF", whatever its tests, benchmarks
    and dependencies. *)
Theorem analyze_without_readme (json_loads : string -> option json)
    (get_repo : string -> Repo + string) (owner name : string)
    (repo : Repo) (data : RepoData) :
  get_repo (owner ++ "/" ++ name) = inl repo ->
  analyze json_loads get_repo owner name = Analysed data ->
  readme_bytes repo = None
  \/ readme_bytes repo = Some EmptyString
  \/ (exists bytes, readme_bytes repo = Some bytes /\ utf8_valid bytes = false) ->
  readme_claims data = []
  /\ final_roasts data = []
  /\ final_score data = 95
  /\ final_verdict data = "Honest AF"
  /\ quick_roast data
     = header data
       ++ ("âœ… No obvious lies detected. Surprisingly honest!" ++ String
          "010" (String "010"
          ("â”â”â”â”â”â”â”â”â”â”â”â”â”â”â”â”â”â”â”â”â”â”â”â”â”â”â”â”â”â”â”â”â”"
          ++ String "010" ("TRUTH SCORE: 95/100" ++ String "010"
          ("VERDICT: Honest AF" ++ String "010"
          ("â”â”â”â”â”â”â”â”â”â”â”â”â”â”â”â”â”â”â”â”â”â”â”â”â”â”â”â”â”â”â”â”â”"
          ++ String "010" EmptyString)))))).
Proof.
  intros Hrepo Han Hreadme.
  destruct (analyze_fields _ _ _ _ _ Han) as [repo' [Hrepo' [Hclaims _]]].
  rewrite Hrepo in Hrepo'. injection Hrepo' as <-.
  assert (Hnone : readme_claims data = []).
  { rewrite Hclaims. unfold _get_readme, decode_utf8.
    destruct Hreadme as [->|[->|[bytes [-> Hv]]]];
      [reflexivity|reflexivity|now rewrite Hv]. }
  pose proof (checks_without_claims data Hnone) as Hchecks.
  unfold quick_roast, final_verdict, final_roasts, final_score.
  rewrite Hchecks. repeat split; try reflexivity; try exact Hnone.
Qed.

Lemma analyze_without_readme_witness :
  exists data,
    analyze (fun _ => None) (fun _ => inl Scenario.bare_repo)
            "rustacean" "tinycrate" = Analysed data
    /\ has_tests data = false
    /\ final_score data = 95
    /\ final_verdict data = "Honest AF".
Proof.
  eexists. split; [reflexivity|]. split; [reflexivity|].
  destruct (analyze_without_readme (fun _ => None)
              (fun _ => inl Scenario.bare_repo) "rustacean" "tinycrate"
              Scenario.bare_repo _ eq_refl eq_refl (or_introl eq_refl))
    as [_ [_ [Hs [Hv _]]]].
  split; [exact Hs|exact Hv].
Defined.

(** X15: only [package.json] and [requirements.txt] are read.  For a
    repository that has neither, whatever its other manifests hold, the
    record counts no dependency, so the lightweight rule of [quick_roast]
    does not fire and the score is 55 or more. *)
Theorem analyze_unread_manifests (json_loads : string -> option json)
    (get_repo : string -> Repo + string) (owner name : string)
    (repo : Repo) (data : RepoData) :
  get_repo (owner ++ "/" ++ name) = inl repo ->
  analyze json_loads get_repo owner name = Analysed data ->
  get_contents repo "package.json" = None ->
  get_contents repo "requirements.txt" = None ->
  dep_count (dependencies data) = 0
  /\ dep_list (dependencies data) = []
  /\ rule_lightweight data = false
  /\ (forall a, check_dependencies data a = a)
  /\ 55 <= final_score data.
Proof.
  intros Hrepo Han H1 H2.
  destruct (analyze_fields _ _ _ _ _ Han) as [repo' [Hrepo' [_ [Hdeps _]]]].
  rewrite Hrepo in Hrepo'. injection Hrepo' as <-.
  assert (Hzero : dep_count (dependencies data) = 0
                  /\ dep_list (dependencies data) = []).
  { rewrite Hdeps. unfold _get_dependencies.
    apply (ManifestFacts.probe_unread json_loads (get_contents repo) dep_files
             (mkDependencies 0 None [])).
    intros f t _ Ef. apply orb_true_iff in Ef.
    destruct Ef as [E|E]; apply String.eqb_eq in E; now subst. }
  destruct Hzero as [Hc Hl].
  assert (Hrule : rule_lightweight data = false).
  { unfold rule_lightweight. rewrite Hc. apply andb_false_r. }
  assert (Hidle : forall a, check_dependencies data a = a)
    by (intros a; now apply RoasterFacts.check_dependencies_idle).
  repeat split; try assumption.
  unfold final_score, body_and_score, checks. rewrite Hidle.
  unfold check_production, check_performance.
  destruct (of_category "performance" (readme_claims data));
    destruct (of_category "production" (readme_claims data));
    destruct (has_benchmarks data); destruct (has_tests data); cbn; lia.
Qed.

Lemma analyze_unread_manifests_witness :
  exists data,
    analyze (fun _ => None) (fun _ => inl Scenario.crate_repo)
            "rustacean" "tinycrate" = Analysed data
    /\ readme_claims data
       = [ mkClaim "production" "production ready" 1;
           mkClaim "lightweight" "lightweight" 1;
           mkClaim "lightweight" "tiny" 1 ]
    /\ dependencies data = mkDependencies 0 (Some "cargo") []
    /\ rule_lightweight data = false
    /\ final_score data = 75.
Proof.
  eexists. split; [reflexivity|].
  split; [vm_compute; reflexivity|]. split; [vm_compute; reflexivity|].
  destruct (analyze_unread_manifests (fun _ => None)
              (fun _ => inl Scenario.crate_repo) "rustacean" "tinycrate"
              Scenario.crate_repo _ eq_refl eq_refl eq_refl eq_refl)
    as [_ [_ [Hr _]]].
  split; [exact Hr|vm_compute; reflexivity].
Defined.



End AnalyzeFacts.

(** ** Commit frequency *)

Module FrequencyFacts.

Import Analyzer.


End FrequencyFacts.

(** ** More on the prompt *)

Module ComposerFacts.

Import Py Prompts.

(** X18: the prompt lists the first ten claims only, one line for each, and
    the placeholder when there is none. *)
Theorem claims_text_top_ten (claims : list Claim) :
  claims_text (firstn 10 claims) = claims_text claims
  /\ (forall more, (10 <= List.length claims)%nat ->
                   claims_text (claims ++ more) = claims_text claims)
  /\ (claims <> [] ->
      claims_text claims
      = String.concat EmptyString (map claim_line (firstn 10 claims)))
  /\ claims_text [] = "- No specific claims detected in README" ++ String "010" EmptyString
  /\ claims_text [ mkClaim "performance" "blazingly fast" 3;
                   mkClaim "lightweight" "zero dependencies" 1 ]
     = "- PERFORMANCE: " ++ String "034" ("blazingly fast" ++ String "034"
       (" (mentioned 3x)" ++ String "010" ("- LIGHTWEIGHT: " ++ String
       "034" ("zero dependencies" ++ String "034" (" (mentioned 1x)" ++
       String "010" EmptyString))))).
Proof.
  assert (Hfold : forall (l : list Claim) (acc : string),
             fold_left (fun out claim => out ++ claim_line claim) l acc
             = acc ++ String.concat EmptyString (map claim_line l)).
  { induction l as [|c l IH]; intros acc; simpl.
    - now rewrite TextFacts.append_empty_r.
    - rewrite IH. rewrite TextFacts.append_assoc. f_equal.
      destruct (map claim_line l) eqn:E.
      + now rewrite TextFacts.append_empty_r.
      + reflexivity. }
  split; [|split; [|split; [|split; [reflexivity|vm_compute; reflexivity]]]].
  - destruct claims as [|c cs]; [reflexivity|].
    unfold claims_text. change (firstn 10 (c :: cs)) with (c :: firstn 9 cs).
    change (firstn 10 (c :: firstn 9 cs)) with (c :: firstn 9 (firstn 9 cs)).
    now rewrite firstn_firstn.
  - intros more Hlen. destruct claims as [|c cs]; [simpl in Hlen; lia|].
    unfold claims_text.
    change ((c :: cs) ++ more)%list with (c :: (cs ++ more))%list.
    change (firstn 10 (c :: (cs ++ more)%list))
      with (c :: firstn 9 (cs ++ more)%list).
    change (firstn 10 (c :: cs)) with (c :: firstn 9 cs).
    rewrite (firstn_app 9 cs more).
    simpl in Hlen.
    replace (9 - List.length cs)%nat with O by lia.
    now rewrite firstn_O, app_nil_r.
  - intros Hne. destruct claims as [|c cs]; [contradiction|].
    unfold claims_text. now rewrite Hfold.
Qed.

(** X19: the words for the last commit: "today" for 0 days, "yesterday"
    for 1, then days below 30, months below 365 and years, the quotients
    being truncated; the number of days is the floor of the gap, so a push
    dated one second after the clock of the composer is written
    "-1 days ago". *)
Theorem last_commit_text_buckets (n : Z) :
  (2 <= n < 30 -> last_commit_text n = str_of_int n ++ " days ago")
  /\ (n < 0 -> last_commit_text n = str_of_int n ++ " days ago")
  /\ (30 <= n < 365 -> last_commit_text n = str_of_int (n / 30) ++ " months ago")
  /\ (365 <= n -> last_commit_text n = str_of_int (n / 365) ++ " years ago")
  /\ last_commit_text 0 = "today"
  /\ last_commit_text 1 = "yesterday"
  /\ last_commit_text 29 = "29 days ago"
  /\ last_commit_text 30 = "1 months ago"
  /\ last_commit_text 364 = "12 months ago"
  /\ last_commit_text 365 = "1 years ago"
  /\ last_commit_text 800 = "2 years ago"
  /\ days_between 86400 172799 = 0
  /\ days_between 1000 999 = -1
  /\ last_commit_text (days_between 1000 999) = "-1 days ago".
Proof.
  unfold last_commit_text.
  split; [|split; [|split; [|split; [|repeat split]]]].
  - intros H.
    destruct (Z.eqb_spec n 0); [lia|]. destruct (Z.eqb_spec n 1); [lia|].
    destruct (Z.ltb_spec n 30); [reflexivity|lia].
  - intros H.
    destruct (Z.eqb_spec n 0); [lia|]. destruct (Z.eqb_spec n 1); [lia|].
    destruct (Z.ltb_spec n 30); [reflexivity|lia].
  - intros H.
    destruct (Z.eqb_spec n 0); [lia|]. destruct (Z.eqb_spec n 1); [lia|].
    destruct (Z.ltb_spec n 30); [lia|].
    destruct (Z.ltb_spec n 365); [reflexivity|lia].
  - intros H.
    destruct (Z.eqb_spec n 0); [lia|]. destruct (Z.eqb_spec n 1); [lia|].
    destruct (Z.ltb_spec n 30); [lia|].
    destruct (Z.ltb_spec n 365); [lia|reflexivity].
Qed.

End ComposerFacts.

(** ** The scores of the heuristic *)

Module VerdictFacts.

Import Roaster Spec.

(** X20: [quick_roast] prints one of eight scores, each with its verdict:
    95 when no rule fires, and 100 less the penalties of the rules that
    fire otherwise.  It never prints 100, and never more than three
    entries; the score is 95 exactly when there is no entry. *)
Theorem quick_roast_score_values (d : RepoData) :
  In (final_score d, final_verdict d)
     [ (95, "Honest AF"); (85, "Mostly True"); (80, "Mostly True");
       (75, "Mostly True"); (65, "Marketing Spin"); (60, "Marketing Spin");
       (55, "Marketing Spin"); (40, "Creative Liberties") ]
  /\ final_score d <> 100
  /\ (List.length (final_roasts d) <= 3)%nat
  /\ (final_roasts d = [] <-> final_score d = 95).
Proof.
  RoasterFacts.roast_cases d;
    (split; [simpl; tauto|split; [discriminate|split; [lia|split; (reflexivity || discriminate)]]]).
Qed.

End VerdictFacts.
